(** * The DHT11 dashboard (app.py): fetch, normalise, render

    A shallow embedding of [app.py].  The script fetches two Adafruit IO
    feeds over HTTP ([get_feed_data], memoised by [st.cache_data]), turns
    each JSON answer into a time-sorted table ([process_data]) and hands
    the tables to Streamlit and Matplotlib ([create_dashboard]).

    Python values are an inductive type, exceptions are values of [exn],
    and everything that writes to the page, reads the result cache or
    talks to the network runs in the monad [M] over the record [world].
    The libraries the script calls ([str.replace], [datetime.fromisoformat],
    [float], [pandas.DataFrame], [requests], [st.cache_data]) are modelled
    after their documented behaviour, next to the call that uses them. *)

From Stdlib Require Import Ascii.
From stdpp Require Import base numbers strings list gmap sorting pretty.

Local Open Scope Z_scope.
#[local] Set Warnings "-register-all".

(** ** Python values *)

(** A Python [float].  A finite value is kept as the decimal it was read
    from, [(-1)^neg * m * 10^e], and stands for the binary64 nearest to it;
    a decimal outside the range of binary64 is not kept as such (see
    [normalize]).  The rounding inside the range is not modelled, and no
    property below looks at it. *)
Inductive pyfloat :=
| FNan
| FInf (neg : bool)
| FDec (neg : bool) (m : N) (e : Z).

(** What [response.json()] can return. A [dict] keeps its items in
    insertion order; a key is looked up from the front. *)
Inductive pyval :=
| PNone
| PBool (b : bool)
| PInt (z : Z)
| PFloat (f : pyfloat)
| PStr (s : string)
| PList (l : list pyval)
| PDict (items : list (string * pyval)).

(** [requests.exceptions]: the subclasses of [RequestException] that the
    script can meet. *)
Inductive request_error :=
| ConnectionError
| Timeout
| TooManyRedirects
| InvalidURL
| InvalidHeader
| HTTPError
| JSONDecodeError.

(** Exceptions.  [RequestException k msg] is an instance of the subclass
    [k] whose [str()] is [msg]; [RerunException] is Streamlit's control
    exception, which is not an [Exception]. *)
Inductive exn :=
| TypeError
| ValueError
| KeyError (key : string)
| AttributeError
| OverflowError
| RequestException (k : request_error) (msg : string)
| RerunException.

Inductive outcome (A : Type) :=
| Ok (a : A)
| Raise (e : exn).
Arguments Ok {A} a.
Arguments Raise {A} e.

Definition obind {A B} (x : outcome A) (k : A → outcome B) : outcome B :=
  match x with
  | Ok a => k a
  | Raise e => Raise e
  end.

Notation "'let?' x ':=' c 'in' k" := (obind c (λ x, k))
  (at level 10, x pattern, c at level 100, k at level 200).

(** ** Strings *)

Definition code (c : ascii) : Z := Z.of_N (N_of_ascii c).

(** [s.replace("Z", "+00:00")]: every occurrence of the letter is replaced,
    wherever it stands. *)
Fixpoint replace_Z (s : string) : string :=
  match s with
  | EmptyString => EmptyString
  | String c rest =>
      if decide (c = "Z"%char) then "+00:00" +:+ replace_Z rest
      else String c (replace_Z rest)
  end.

Fixpoint contains_char (c : ascii) (s : string) : bool :=
  match s with
  | EmptyString => false
  | String d rest => bool_decide (c = d) || contains_char c rest
  end.

Definition digit_of (c : ascii) : option Z :=
  let n := code c in
  if bool_decide (48 ≤ n ≤ 57) then Some (n - 48) else None.

(** [n] ASCII digits at the front of [s], as a number, and the rest. *)
Fixpoint parse_digits (n : nat) (acc : Z) (s : string) : option (Z * string) :=
  match n with
  | O => Some (acc, s)
  | S n' =>
      match s with
      | String c rest =>
          match digit_of c with
          | Some d => parse_digits n' (10 * acc + d) rest
          | None => None
          end
      | EmptyString => None
      end
  end.

Definition lower (c : ascii) : ascii :=
  let n := code c in
  if bool_decide (65 ≤ n ≤ 90) then ascii_of_N (Z.to_N (n + 32)) else c.

Fixpoint lower_string (s : string) : string :=
  match s with
  | EmptyString => EmptyString
  | String c rest => String (lower c) (lower_string rest)
  end.

(** The characters that [float] drops around a numeral, for code points
    below 256: the ASCII white space (tab to carriage return, and the
    space) and the two Unicode spaces above 127, which CPython turns into
    spaces first.  The separators 0x1C to 0x1F count as white space for
    [str.isspace] but [float] does not drop them. *)
Definition is_whitespace (c : ascii) : bool :=
  let n := code c in
  bool_decide (9 ≤ n ≤ 13) || bool_decide (n = 32)
  || bool_decide (n = 133) || bool_decide (n = 160).

Fixpoint lstrip (s : string) : string :=
  match s with
  | String c rest => if is_whitespace c then lstrip rest else s
  | EmptyString => EmptyString
  end.

Fixpoint rstrip (s : string) : string :=
  match s with
  | String c rest =>
      let rest' := rstrip rest in
      if is_whitespace c && bool_decide (rest' = EmptyString)
      then EmptyString else String c rest'
  | EmptyString => EmptyString
  end.

(** The string without the white space that [float] drops at its ends. *)
Definition strip (s : string) : string := rstrip (lstrip s).

Fixpoint all_whitespace (s : string) : bool :=
  match s with
  | String c rest => is_whitespace c && all_whitespace rest
  | EmptyString => true
  end.

(** ** [float(x)] *)

Definition is_digit (c : ascii) : bool := bool_decide (is_Some (digit_of c)).

(** PEP 515: an underscore has to stand between two digits. [prev] is the
    character before [s]. *)
Fixpoint strip_underscores (prev : ascii) (s : string) : option string :=
  match s with
  | EmptyString =>
      if bool_decide (prev = "_"%char) then None else Some EmptyString
  | String c rest =>
      if bool_decide (c = "_"%char) then
        if is_digit prev then strip_underscores c rest else None
      else if bool_decide (prev = "_"%char) && negb (is_digit c) then None
      else String c <$> strip_underscores c rest
  end.

(** The digits at the front of [s], appended to the numeral [acc]; with
    their count and the rest of the string. *)
Fixpoint digits_go (s : string) (acc : N) (n : nat) : N * nat * string :=
  match s with
  | String c rest =>
      match digit_of c with
      | Some d => digits_go rest (10 * acc + Z.to_N d)%N (S n)
      | None => (acc, n, s)
      end
  | EmptyString => (acc, n, s)
  end.

Definition split_sign (s : string) : bool * string :=
  match s with
  | String "-" rest => (true, rest)
  | String "+" rest => (false, rest)
  | _ => (false, s)
  end.

(** Trailing zeros of the numeral move into the exponent. *)
Fixpoint normalize_go (fuel : nat) (m : N) (e : Z) : N * Z :=
  match fuel with
  | O => (m, e)
  | S fuel' =>
      if bool_decide (m `mod` 10 = 0)%N
      then normalize_go fuel' (m `div` 10)%N (e + 1)
      else (m, e)
  end.

(** The first magnitude that no longer rounds to a finite binary64: half
    way between the largest finite value and [2^1024]. *)
Definition float_overflow : Z := 2 ^ 1024 - 2 ^ 970.

(** [m * 10^e] is at least [float_overflow]. *)
Definition decimal_overflows (m : N) (e : Z) : bool :=
  if bool_decide (0 ≤ e)
  then bool_decide (float_overflow ≤ Z.of_N m * 10 ^ e)
  else bool_decide (float_overflow * 10 ^ (- e) ≤ Z.of_N m).

(** [m * 10^e] is at most [2^-1075], half the smallest positive binary64,
    and rounds to zero. *)
Definition decimal_underflows (m : N) (e : Z) : bool :=
  bool_decide (e < 0) && bool_decide (Z.of_N m * 2 ^ 1075 ≤ 10 ^ (- e)).

(** The [float] that the decimal [(-1)^neg * m * 10^e] is read as: an
    infinity when it is too large, a zero when it is too small, and else
    the decimal itself, in the form without trailing zeros. *)
Definition normalize (neg : bool) (m : N) (e : Z) : pyfloat :=
  if bool_decide (m = 0)%N then FDec neg 0 0
  else if decimal_overflows m e then FInf neg
  else if decimal_underflows m e then FDec neg 0 0
  else let '(m', e') := normalize_go (N.size_nat m) m e in FDec neg m' e'.

(** [digits [. digits] | . digits], then an optional exponent; the whole
    string has to be used up. *)
Definition parse_decimal (neg : bool) (s : string) : option pyfloat :=
  let '(ip, ni, r1) := digits_go s 0%N O in
  let '(m, nf, r2) :=
    match r1 with
    | String "." r => digits_go r ip O
    | _ => (ip, O, r1)
    end in
  if bool_decide (ni + nf = 0)%nat then None
  else
    match r2 with
    | EmptyString => Some (normalize neg m (- Z.of_nat nf))
    | String c r3 =>
        if bool_decide (lower c = "e"%char) then
          let '(eneg, r4) := split_sign r3 in
          let '(ev, ne, r5) := digits_go r4 0%N O in
          if bool_decide (ne = O) || negb (bool_decide (r5 = EmptyString))
          then None
          else
            let ex := if eneg then - Z.of_N ev else Z.of_N ev in
            Some (normalize neg m (ex - Z.of_nat nf))
        else None
    end.

(** [float(s)] for a [str]: surrounding white space is dropped, then an
    optional sign and either [inf], [infinity] or [nan] in any letter
    case, or a decimal numeral. *)
Definition float_of_string (s : string) : option pyfloat :=
  match strip_underscores "000"%char s with
  | None => None
  | Some s1 =>
      let '(neg, body) := split_sign (strip s1) in
      let l := lower_string body in
      if bool_decide (l = "inf") || bool_decide (l = "infinity")
      then Some (FInf neg)
      else if bool_decide (l = "nan") then Some FNan
      else parse_decimal neg body
  end.

(** [float(x)]: a [str] is parsed, a number converted, anything else is a
    [TypeError].  An [int] that is too large is an [OverflowError], where a
    numeral in a [str] gives an infinity. *)
Definition py_float (x : pyval) : outcome pyfloat :=
  match x with
  | PStr s =>
      match float_of_string s with
      | Some f => Ok f
      | None => Raise ValueError
      end
  | PFloat f => Ok f
  | PInt z =>
      if bool_decide (float_overflow ≤ Z.abs z) then Raise OverflowError
      else Ok (normalize (bool_decide (z < 0)) (Z.abs_N z) 0)
  | PBool b => Ok (FDec false (if b then 1 else 0) 0)
  | PNone | PList _ | PDict _ => Raise TypeError
  end.

Definition is_finite (f : pyfloat) : bool :=
  match f with
  | FDec _ _ _ => true
  | _ => false
  end.

(** ** [datetime.datetime] *)

(** A [datetime]: the calendar fields and [tzinfo], either [None] (a naive
    value) or a fixed offset from UTC, in microseconds (an aware value). *)
Record datetime := mk_datetime {
  year : Z;
  month : Z;
  day : Z;
  hour : Z;
  minute : Z;
  second : Z;
  microsecond : Z;
  tzinfo : option Z
}.

Definition is_leap (y : Z) : bool :=
  bool_decide (y `mod` 4 = 0)
  && (negb (bool_decide (y `mod` 100 = 0)) || bool_decide (y `mod` 400 = 0)).

Definition days_in_month (y m : Z) : Z :=
  if bool_decide (m = 2) then (if is_leap y then 29 else 28)
  else if bool_decide (m = 4) || bool_decide (m = 6)
          || bool_decide (m = 9) || bool_decide (m = 11) then 30
  else 31.

Definition days_before_year (y : Z) : Z :=
  let y1 := y - 1 in
  y1 * 365 + y1 `div` 4 - y1 `div` 100 + y1 `div` 400.

Definition days_before_month (y m : Z) : Z :=
  foldr (λ k acc, days_in_month y k + acc) 0 (seqZ 1 (m - 1)).

Definition toordinal (d : datetime) : Z :=
  days_before_year (year d) + days_before_month (year d) (month d) + day d.

Definition day_micros : Z := 86400 * 1000000.

(** Microseconds since the start of the calendar, as the fields read. *)
Definition local_micros (d : datetime) : Z :=
  (((toordinal d * 24 + hour d) * 60 + minute d) * 60 + second d) * 1000000
  + microsecond d.

(** The point in time: for an aware value the offset is taken off. *)
Definition instant (d : datetime) : Z :=
  local_micros d - default 0 (tzinfo d).

Definition aware (d : datetime) : bool := bool_decide (is_Some (tzinfo d)).
Definition naive (d : datetime) : bool := negb (aware d).

(** [a <= b]: a naive and an aware value do not compare. *)
Definition datetime_le (a b : datetime) : outcome bool :=
  if bool_decide (aware a = aware b)
  then Ok (bool_decide (instant a ≤ instant b))
  else Raise TypeError.

(** The checks of the [datetime] and [timezone] constructors. *)
Definition valid_fields (y mo d h mi s us : Z) : bool :=
  bool_decide (1 ≤ y ≤ 9999) && bool_decide (1 ≤ mo ≤ 12)
  && bool_decide (1 ≤ d ≤ days_in_month y mo)
  && bool_decide (0 ≤ h ≤ 23) && bool_decide (0 ≤ mi ≤ 59)
  && bool_decide (0 ≤ s ≤ 59) && bool_decide (0 ≤ us ≤ 999999).

Definition valid_offset (off : Z) : bool :=
  bool_decide (- day_micros < off < day_micros).

(** [.fff] or [.ffffff] at the end of the string, in microseconds. *)
Definition parse_fraction (s : string) : option Z :=
  if bool_decide (String.length s = 3%nat) then
    '(ms, r) ← parse_digits 3 0 s;
    if bool_decide (r = EmptyString) then Some (ms * 1000) else None
  else if bool_decide (String.length s = 6%nat) then
    '(us, r) ← parse_digits 6 0 s;
    if bool_decide (r = EmptyString) then Some us else None
  else None.

(** [HH[:MM[:SS[.fff[fff]]]]], the whole string. *)
Definition parse_hh_mm_ss_ff (s : string) : option (Z * Z * Z * Z) :=
  '(h, r) ← parse_digits 2 0 s;
  match r with
  | EmptyString => Some (h, 0, 0, 0)
  | String ":" r =>
      '(mi, r) ← parse_digits 2 0 r;
      match r with
      | EmptyString => Some (h, mi, 0, 0)
      | String ":" r =>
          '(sec, r) ← parse_digits 2 0 r;
          match r with
          | EmptyString => Some (h, mi, sec, 0)
          | String "." r => us ← parse_fraction r; Some (h, mi, sec, us)
          | _ => None
          end
      | _ => None
      end
  | _ => None
  end.

(** The time and the offset of [HH...[+HH:MM[:SS[.ffffff]]]]: the string
    is cut at its first sign. *)
Fixpoint split_offset (s : string) : string * option (bool * string) :=
  match s with
  | EmptyString => (EmptyString, None)
  | String c rest =>
      if bool_decide (c = "+"%char) then (EmptyString, Some (false, rest))
      else if bool_decide (c = "-"%char) then (EmptyString, Some (true, rest))
      else let '(t, o) := split_offset rest in (String c t, o)
  end.

(** [+HH:MM], [+HH:MM:SS] or [+HH:MM:SS.ffffff]; an offset of zero is
    [timezone.utc]. *)
Definition parse_offset (neg : bool) (s : string) : option Z :=
  let n := String.length s in
  if bool_decide (n = 5%nat) || bool_decide (n = 8%nat)
     || bool_decide (n = 15%nat) then
    '(h, mi, sec, us) ← parse_hh_mm_ss_ff s;
    let off := ((h * 60 + mi) * 60 + sec) * 1000000 + us in
    let off := if neg then - off else off in
    if valid_offset off then Some off else None
  else None.

(** [datetime.fromisoformat(s)], for the format that [isoformat()] writes:
    [YYYY-MM-DD[*HH[:MM[:SS[.fff[fff]]]][+HH:MM[:SS[.ffffff]]]]], where [*]
    is any one character.  Every CPython since 3.7 reads this format and
    gives the same value, and CPython 3.7 to 3.10 read nothing else; a
    failure is a [ValueError].  CPython 3.11 and later read further ISO 8601
    forms (a fraction of any length, the basic format, an offset written
    [+0000]), which are rejected here: for such a string [None] does not
    tell what the later releases do. *)
Definition fromisoformat (s : string) : option datetime :=
  '(y, r) ← parse_digits 4 0 s;
  r ← (match r with String "-" r => Some r | _ => None end);
  '(mo, r) ← parse_digits 2 0 r;
  r ← (match r with String "-" r => Some r | _ => None end);
  '(d, r) ← parse_digits 2 0 r;
  '(h, mi, sec, us, tz) ←
    match r with
    | EmptyString => Some (0, 0, 0, 0, None)
    | String _ t =>
        let '(tstr, off) := split_offset t in
        '(h, mi, sec, us) ← parse_hh_mm_ss_ff tstr;
        match off with
        | None => Some (h, mi, sec, us, None)
        | Some (neg, o) => z ← parse_offset neg o; Some (h, mi, sec, us, Some z)
        end
    end;
  if valid_fields y mo d h mi sec us
  then Some (mk_datetime y mo d h mi sec us tz)
  else None.


(** ** Operations on values of unknown type *)

Fixpoint dict_get (key : string) (items : list (string * pyval)) : option pyval :=
  match items with
  | [] => None
  | (k, v) :: rest => if decide (k = key) then Some v else dict_get key rest
  end.

(** [x[key]] for a [str] key: only a [dict] can be indexed by it. *)
Definition getitem (x : pyval) (key : string) : outcome pyval :=
  match x with
  | PDict items =>
      match dict_get key items with
      | Some v => Ok v
      | None => Raise (KeyError key)
      end
  | _ => Raise TypeError
  end.

(** [x.replace("Z", "+00:00")]: only a [str] has the method. *)
Definition replace_method (x : pyval) : outcome string :=
  match x with
  | PStr s => Ok (replace_Z s)
  | _ => Raise AttributeError
  end.

Fixpoint chars (s : string) : list pyval :=
  match s with
  | EmptyString => []
  | String c rest => PStr (String c EmptyString) :: chars rest
  end.

(** [for entry in data]: the items of a list, the keys of a dict, the
    characters of a string; nothing else can be iterated. *)
Definition py_iter (data : pyval) : outcome (list pyval) :=
  match data with
  | PList l => Ok l
  | PDict items => Ok (PStr <$> items.*1)
  | PStr s => Ok (chars s)
  | _ => Raise TypeError
  end.

(** Truth value, as [or] and [if] test it. *)
Definition truthy (x : pyval) : bool :=
  match x with
  | PNone => false
  | PBool b => b
  | PInt z => negb (bool_decide (z = 0))
  | PFloat (FDec _ m _) => negb (bool_decide (m = 0)%N)
  | PFloat _ => true
  | PStr s => negb (bool_decide (s = EmptyString))
  | PList l => negb (bool_decide (l = []))
  | PDict items => negb (bool_decide (items = []))
  end.

(** [x or y] *)
Definition py_or (x y : pyval) : pyval := if truthy x then x else y.

(** [except Exception]: every exception of the model but Streamlit's
    control exception. *)
Definition is_Exception (e : exn) : bool :=
  match e with
  | RerunException => false
  | _ => true
  end.

(** ** [pandas.DataFrame] with the columns [time] and [value] *)

Record row := mk_row {
  row_index : nat;
  row_time : datetime;
  row_value : pyfloat
}.

Abbreviation DataFrame := (list row).

Definition with_index (i : nat) (r : row) : row :=
  mk_row i (row_time r) (row_value r).

(** [pd.DataFrame({"time": times, "value": values})]: the columns must be
    of one length; the rows are labelled from zero. *)
Definition new_DataFrame (times : list datetime) (values : list pyfloat)
  : outcome DataFrame :=
  if bool_decide (length times = length values)
  then Ok (imap (λ i tv, mk_row i tv.1 tv.2) (zip times values))
  else Raise ValueError.

Definition row_le (a b : row) : Prop :=
  instant (row_time a) ≤ instant (row_time b).

Global Instance row_le_dec : RelDecision row_le.
Proof. intros a b. unfold row_le. apply _. Defined.

Definition row_ge (a b : row) : Prop := row_le b a.

Global Instance row_ge_dec : RelDecision row_ge.
Proof. intros a b. unfold row_ge. apply _. Defined.

Definition has_aware (df : DataFrame) : bool := existsb (aware ∘ row_time) df.
Definition has_naive (df : DataFrame) : bool := existsb (naive ∘ row_time) df.

(** [df.sort_values("time")]: the rows in ascending order of time, each
    with its label.  A column that holds naive and aware values is a column
    of objects, and sorting it compares a naive with an aware value, which
    is a [TypeError].  The default sort of pandas promises no order among
    rows of equal time, and the order that this merge sort gives them need
    not be the one pandas gives; no property below says anything about
    it. *)
Definition sort_values (df : DataFrame) : outcome DataFrame :=
  if has_aware df && has_naive df then Raise TypeError
  else Ok (merge_sort row_le df).

(** [df.reset_index(drop=True)]: the rows as they stand, labelled 0, 1, ... *)
Definition reset_index (df : DataFrame) : DataFrame := imap with_index df.

(** [df.set_index("time").sort_index(ascending=False)] *)
Definition sort_index_descending (df : DataFrame) : DataFrame :=
  merge_sort row_ge df.

(** [df.empty] *)
Definition empty (df : DataFrame) : bool := bool_decide (df = []).

(** ** The page, the cache, the network *)

(** What the script puts on the page, and the plot style it selects.
    Static elements are recorded by the name of the call; their texts carry
    no data. *)
Inductive st_event :=
| st_error (msg : string)
| st_warning (msg : string)
| st_warning_skipping (entry : pyval) (e : exn)
| st_pyplot (temperature humidity : option DataFrame)
| st_dataframe (df : DataFrame)
| st_element (call : string)
| plt_style_use (style : string).

Record request := mk_request {
  req_method : string;
  req_url : string;
  req_headers : list (string * option string);
  req_params : list (string * Z)
}.

(** A [requests.Response]: [resp_json] is what [json()] gives, the decoded
    body or the message of the decoding error. *)
Record response := mk_response {
  status_code : Z;
  reason : string;
  resp_url : string;
  resp_json : string + pyval
}.

(** A memoised call: the value returned, the elements the call put on the
    page, and the time the entry stops being valid.  The cache is keyed by
    the arguments as the caller wrote them: the feed key, and the limit if
    one was given. *)
Record cache_entry := mk_cache_entry {
  cached_value : pyval;
  cached_messages : list st_event;
  expires : Z
}.

(** The state around a run: the elements shown so far, the memoised
    calls, the calls of [requests.get] made so far, and the reading of the
    clock in seconds. *)
Record world := mk_world {
  page : list st_event;
  cache : gmap (string * option Z) cache_entry;
  sent : list request;
  clock : Z
}.

Definition M (A : Type) : Type := world → outcome A * world.

Definition ret {A} (a : A) : M A := λ w, (Ok a, w).

Definition bind {A B} (c : M A) (k : A → M B) : M B :=
  λ w, match c w with
       | (Ok a, w') => k a w'
       | (Raise e, w') => (Raise e, w')
       end.

Notation "'let!' x ':=' c 'in' k" := (bind c (λ x, k))
  (at level 10, x pattern, c at level 100, k at level 200).
Notation "c ;; k" := (bind c (λ _, k))
  (at level 100, k at level 200, right associativity).

Definition raise {A} (e : exn) : M A := λ w, (Raise e, w).

Definition lift {A} (x : outcome A) : M A := λ w, (x, w).

(** [try: body except ...: handler]: [handler e] is [None] when no
    [except] clause matches [e]. *)
Definition try_except {A} (body : M A) (handler : exn → option (M A)) : M A :=
  λ w, match body w with
       | (Ok a, w') => (Ok a, w')
       | (Raise e, w') =>
           match handler e with
           | Some h => h w'
           | None => (Raise e, w')
           end
       end.

Definition emit (ev : st_event) : M unit :=
  λ w, (Ok tt, mk_world (page w ++ [ev]) (cache w) (sent w) (clock w)).

(** ** [process_data] *)

(** [datetime.datetime.fromisoformat(entry["created_at"].replace("Z", "+00:00"))] *)
Definition parse_created_at (entry : pyval) : outcome datetime :=
  let? c := getitem entry "created_at" in
  let? s := replace_method c in
  match fromisoformat s with
  | Some dt => Ok dt
  | None => Raise ValueError
  end.

(** [float(entry["value"])] *)
Definition parse_value (entry : pyval) : outcome pyfloat :=
  let? v := getitem entry "value" in
  py_float v.

(** The body of the [try], up to the first exception: the two lists as it
    leaves them, and the exception if there was one.  [times] has grown by
    the time [float] runs. *)
Definition try_entry (entry : pyval) (times : list datetime)
    (values : list pyfloat) : list datetime * list pyfloat * option exn :=
  match parse_created_at entry with
  | Raise e => (times, values, Some e)
  | Ok dt =>
      let times := times ++ [dt] in
      match parse_value entry with
      | Raise e => (times, values, Some e)
      | Ok f => (times, values ++ [f], None)
      end
  end.

(** The [for] loop. *)
Fixpoint process_entries (entries : list pyval) (times : list datetime)
    (values : list pyfloat) : M (list datetime * list pyfloat) :=
  match entries with
  | [] => ret (times, values)
  | entry :: rest =>
      let '(times, values, r) := try_entry entry times values in
      match r with
      | None => process_entries rest times values
      | Some e =>
          if is_Exception e
          then emit (st_warning_skipping entry e);;
               process_entries rest times values
          else raise e
      end
  end.

Definition process_data (data : pyval) : M DataFrame :=
  let! entries := lift (py_iter data) in
  let! (times, values) := process_entries entries [] [] in
  let! df := lift (new_DataFrame times values) in
  let! df := lift (sort_values df) in
  ret (reset_index df).


(** ** Configuration *)

Definition TEMP_FEED_KEY : string := "temperature".
Definition HUMID_FEED_KEY : string := "humidity".
Definition LIMIT : Z := 500.

Section App.

(** The account name and the key, read from the environment when the
    module is loaded; the key may be missing. *)
Variable AIO_USERNAME : string.
Variable AIO_KEY : option string.

(** The network: what the [n]-th call of [requests.get] meets, either an
    exception of [requests] with its message, or a response. *)
Variable network : nat → request → request_error * string + response.

(** [requests.get(url, headers=headers, params=params)] *)
Definition requests_get (url : string) (headers : list (string * option string))
    (params : list (string * Z)) : M response :=
  λ w,
    let req := mk_request "GET" url headers params in
    let w' := mk_world (page w) (cache w) (sent w ++ [req]) (clock w) in
    match network (length (sent w)) req with
    | inl (k, msg) => (Raise (RequestException k msg), w')
    | inr r => (Ok r, w')
    end.

(** The message of the [HTTPError] that [raise_for_status] builds. *)
Definition http_error_msg (kind : string) (r : response) : string :=
  pretty (status_code r) +:+ " " +:+ kind +:+ " Error: " +:+ reason r
  +:+ " for url: " +:+ resp_url r.

(** [response.raise_for_status()] *)
Definition raise_for_status (r : response) : M unit :=
  if bool_decide (400 ≤ status_code r < 500)
  then raise (RequestException HTTPError (http_error_msg "Client" r))
  else if bool_decide (500 ≤ status_code r < 600)
  then raise (RequestException HTTPError (http_error_msg "Server" r))
  else ret tt.

(** [response.json()]: a body that is not JSON raises the
    [JSONDecodeError] of [requests], a [RequestException].  Other
    exceptions of the decoder (a [ValueError] for an integer literal beyond
    the digit limit, a [RecursionError] for deep nesting) are not
    [RequestException]s; responses that cause them are outside this
    model. *)
Definition response_json (r : response) : M pyval :=
  match resp_json r with
  | inl msg => raise (RequestException JSONDecodeError msg)
  | inr v => ret v
  end.

(** The function under the decorator.  [limit] is [None] when the caller
    leaves the argument out, and the default [LIMIT] is used. *)
Definition get_feed_data (feed_key : string) (limit : option Z) : M pyval :=
  let limit := default LIMIT limit in
  let url := "https://io.adafruit.com/api/v2/" +:+ AIO_USERNAME
             +:+ "/feeds/" +:+ feed_key +:+ "/data" in
  let headers := [("X-AIO-Key", AIO_KEY)] in
  let params := [("limit", limit)] in
  try_except
    (let! response := requests_get url headers params in
     raise_for_status response;;
     response_json response)
    (λ e, match e with
          | RequestException _ msg =>
              Some (emit (st_error ("Error fetching data for " +:+ feed_key
                                    +:+ ": " +:+ msg));;
                    ret PNone)
          | _ => None
          end).

(** [@st.cache_data(ttl=...)]: the result of a call is kept under its
    arguments until [ttl] seconds have passed.  A call that finds a valid
    entry returns its value and shows again the elements the first call
    showed; the function does not run. *)
Definition cache_data (ttl : Z) (f : string → option Z → M pyval)
    (feed_key : string) (limit : option Z) : M pyval :=
  λ w,
    let miss :=
      match f feed_key limit w with
      | (Ok v, w1) =>
          let messages := drop (length (page w)) (page w1) in
          let entry := mk_cache_entry v messages (clock w1 + ttl) in
          (Ok v, mk_world (page w1) (<[(feed_key, limit) := entry]> (cache w1))
                          (sent w1) (clock w1))
      | (Raise e, w1) => (Raise e, w1)
      end in
    match cache w !! (feed_key, limit) with
    | Some entry =>
        if bool_decide (clock w < expires entry)
        then (Ok (cached_value entry),
              mk_world (page w ++ cached_messages entry) (cache w) (sent w)
                       (clock w))
        else miss
    | None => miss
    end.

(** [get_feed_data] as the script sees it, under [@st.cache_data(ttl=600)]. *)
Definition get_feed_data_cached : string → option Z → M pyval :=
  cache_data 600 get_feed_data.

(** [st.cache_data.clear()] *)
Definition cache_data_clear : M unit :=
  λ w, (Ok tt, mk_world (page w) ∅ (sent w) (clock w)).

(** [st.rerun()] stops the run by raising. *)
Definition st_rerun : M unit := raise RerunException.

Definition is_None (x : pyval) : bool :=
  match x with
  | PNone => true
  | _ => false
  end.

Definition line_of (df : DataFrame) : option DataFrame :=
  if empty df then None else Some df.

(** [create_dashboard], from the two raw results on (the code after the
    two calls of [get_feed_data]).  The calls of Matplotlib and of the
    Streamlit widgets are recorded as elements of the page, with the data
    they are given; what these libraries do with the data, and whether they
    raise on it, is outside this model. *)
Definition render (temp_data_raw humid_data_raw : pyval) : M unit :=
  if is_None temp_data_raw || is_None humid_data_raw then
    emit (st_error "Unable to fetch data from Adafruit IO. Check your credentials or network.")
  else
    let! temp_df := process_data (py_or temp_data_raw (PList [])) in
    let! humid_df := process_data (py_or humid_data_raw (PList [])) in
    if empty temp_df && empty humid_df then
      emit (st_warning "No valid data available. Ensure your ESP32 is uploading to Adafruit IO.")
    else
      emit (st_element "subheader");;
      emit (st_pyplot (line_of temp_df) (line_of humid_df));;
      emit (st_element "subheader");;
      emit (st_element "columns");;
      emit (st_element "markdown");;
      emit (st_dataframe (sort_index_descending temp_df));;
      emit (st_element "markdown");;
      emit (st_dataframe (sort_index_descending humid_df));;
      emit (st_element "markdown");;
      emit (st_element "caption").

(** One run of the script. [theme] is the choice of the radio button,
    [refresh] whether the refresh button was pressed. *)
Definition create_dashboard (theme : string) (refresh : bool) : M unit :=
  emit (st_element "set_page_config");;
  emit (st_element "title");;
  emit (st_element "markdown");;
  emit (st_element "sidebar.header");;
  emit (st_element "sidebar.write");;
  emit (st_element "sidebar.radio");;
  emit (st_element "sidebar.button");;
  (if refresh then cache_data_clear;; st_rerun else ret tt);;
  emit (plt_style_use (if bool_decide (theme = "Light")
                       then "Solarize_Light2" else "dark_background"));;
  emit (st_element "sidebar.expander");;
  emit (st_element "write");;
  emit (st_element "write");;
  let! temp_data_raw := get_feed_data_cached TEMP_FEED_KEY None in
  let! humid_data_raw := get_feed_data_cached HUMID_FEED_KEY None in
  render temp_data_raw humid_data_raw.

End App.


(** ** Vocabulary of the properties *)

(** The timestamp of a record, when it parses. *)
Definition time_of (entry : pyval) : option datetime :=
  match parse_created_at entry with
  | Ok dt => Some dt
  | Raise _ => None
  end.

(** The point of a record, when both fields parse. *)
Definition point_of (entry : pyval) : option (datetime * pyfloat) :=
  match parse_created_at entry, parse_value entry with
  | Ok dt, Ok f => Some (dt, f)
  | _, _ => None
  end.

(** The exception that ends the [try] for a record, if any. *)
Definition failure_of (entry : pyval) : option exn :=
  match parse_created_at entry with
  | Raise e => Some e
  | Ok _ =>
      match parse_value entry with
      | Raise e => Some e
      | Ok _ => None
      end
  end.

Definition parses (entry : pyval) : bool :=
  bool_decide (is_Some (point_of entry)).

(** The timestamp parses and the value does not. *)
Definition half_parsed (entry : pyval) : bool :=
  bool_decide (is_Some (time_of entry)) && negb (parses entry).



Definition warning_of (entry : pyval) : option st_event :=
  st_warning_skipping entry <$> failure_of entry.

Definition show (events : list st_event) (w : world) : world :=
  mk_world (page w ++ events) (cache w) (sent w) (clock w).

(** The table before sorting: one row for every record that parses. *)
Definition unsorted (entries : list pyval) : DataFrame :=
  imap (λ i tv, mk_row i tv.1 tv.2) (omap point_of entries).

(** The time and the value of a row, without its label. *)
Definition point (r : row) : datetime * pyfloat := (row_time r, row_value r).

(** A record as the feed sends it. *)
Definition record (created_at value : string) : pyval :=
  PDict [("created_at", PStr created_at); ("value", PStr value)].

(** The request that a fetch of [feed_key] is to send. *)
Definition feed_request (username : string) (key : option string)
    (feed_key : string) (limit : option Z) : request :=
  mk_request "GET"
    ("https://io.adafruit.com/api/v2/" +:+ username +:+ "/feeds/" +:+ feed_key
     +:+ "/data")
    [("X-AIO-Key", key)]
    [("limit", default 500 limit)].

(** The message that reports a failed fetch. *)
Definition fetch_error (feed_key cause : string) : st_event :=
  st_error ("Error fetching data for " +:+ feed_key +:+ ": " +:+ cause).

(** The world once one more request has gone out. *)
Definition send (req : request) (w : world) : world :=
  mk_world (page w) (cache w) (sent w ++ [req]) (clock w).

(** The world when the clock reads [t]. *)
Definition at_time (t : Z) (w : world) : world :=
  mk_world (page w) (cache w) (sent w) t.

(** What [create_dashboard] shows before it fetches. *)
Definition header_events (theme : string) : list st_event :=
  [st_element "set_page_config"; st_element "title"; st_element "markdown";
   st_element "sidebar.header"; st_element "sidebar.write";
   st_element "sidebar.radio"; st_element "sidebar.button";
   plt_style_use (if bool_decide (theme = "Light")
                  then "Solarize_Light2" else "dark_background");
   st_element "sidebar.expander"; st_element "write"; st_element "write"].

Definition unable_to_fetch : st_event :=
  st_error "Unable to fetch data from Adafruit IO. Check your credentials or network.".

(** ** Example inputs *)

(** A world in which nothing has happened yet. *)
Definition fresh : world := mk_world [] ∅ [] 0.

(** An aware timestamp in UTC, to the second. *)
Definition utc (y mo d h mi s : Z) : datetime :=
  mk_datetime y mo d h mi s 0 (Some 0).

Definition out_of_order_batch : list pyval :=
  [record "2024-01-01T00:00:02Z" "25.0"; record "2024-01-01T00:00:01Z" "24.5"].


Definition batch_with_NA : list pyval :=
  [record "2024-01-01T00:00:00Z" "25.0"; record "2024-01-01T00:00:01Z" "N/A";
   record "2024-01-01T00:00:02Z" "24.5"].

Definition batch_with_bad_time : list pyval :=
  [record "2024-01-01T00:00:00Z" "25.0"; record "yesterday" "26.0";
   record "2024-01-01T00:00:02Z" "24.5"].

Definition literals_batch : list pyval :=
  [record "2024-01-01T00:00:00Z" "nan"; record "2024-01-01T00:00:01Z" "inf";
   record "2024-01-01T00:00:02Z" "-Infinity";
   record "2024-01-01T00:00:03Z" " 25.5 "].

Definition humidity_records : list pyval :=
  [record "2024-01-01T00:00:00Z" "71.0"].

(** A network on which the temperature feed cannot be reached and the
    humidity feed answers. *)
Definition network_temperature_down (n : nat) (req : request)
  : request_error * string + response :=
  if bool_decide (req_url req
                  = "https://io.adafruit.com/api/v2/emon4075/feeds/temperature/data")
  then inl (ConnectionError, "connection refused")
  else inr (mk_response 200 "OK" (req_url req) (inr (PList humidity_records))).

(** A network that fails in a new way on each of the first three requests
    and answers the fourth. *)
Definition network_by_turn (n : nat) (req : request)
  : request_error * string + response :=
  match n with
  | 0%nat => inl (Timeout, "timed out")
  | 1%nat => inr (mk_response 404 "Not Found" (req_url req) (inr (PList [])))
  | 2%nat => inr (mk_response 200 "OK" (req_url req)
                    (inl "Expecting value: line 1 column 1 (char 0)"))
  | _ => inr (mk_response 200 "OK" (req_url req) (inr (PList humidity_records)))
  end.

(** ** Vocabulary of the further properties *)

(** The order of two points in time. *)
Definition point_le (p q : datetime * pyfloat) : Prop :=
  instant p.1 ≤ instant q.1.

(** A table from its points, labelled from zero. *)
Definition table_of (points : list (datetime * pyfloat)) : DataFrame :=
  imap (λ i tv, mk_row i tv.1 tv.2) points.

(** The warning for a value that cannot be indexed by a key. *)
Definition not_a_record (x : pyval) : st_event :=
  st_warning_skipping x TypeError.

Definition no_valid_data : st_event :=
  st_warning "No valid data available. Ensure your ESP32 is uploading to Adafruit IO.".

(** What [create_dashboard] shows once it has two tables of which one at
    least has a row. *)
Definition chart_and_tables (temp_df humid_df : DataFrame) : list st_event :=
  [st_element "subheader";
   st_pyplot (line_of temp_df) (line_of humid_df);
   st_element "subheader"; st_element "columns"; st_element "markdown";
   st_dataframe (sort_index_descending temp_df);
   st_element "markdown";
   st_dataframe (sort_index_descending humid_df);
   st_element "markdown"; st_element "caption"].

(** The cache holds an entry for the call that is still valid. *)
Definition cached_valid (w : world) (key : string * option Z) : bool :=
  match cache w !! key with
  | Some entry => bool_decide (clock w < expires entry)
  | None => false
  end.

(** A computation that only adds to the page. *)
Definition only_shows {A} (c : M A) : Prop :=
  ∀ w, ∃ events, (c w).2 = show events w.

(** The world 600 seconds after the humidity feed was fetched into an
    empty cache. *)
Definition stale_world : world :=
  at_time 600
    (get_feed_data_cached "emon4075" None network_temperature_down
       "humidity" None fresh).2.

(** ** The configuration, as the module reads it *)

(** Loading the module ends with its values, or in the exception that
    Streamlit raises when it finds no secrets file. *)
Inductive import_result (A : Type) :=
| Imported (a : A)
| SecretsNotFound.
Arguments Imported {A} a.
Arguments SecretsNotFound {A}.

(** [load_dotenv()]: the variables of the [.env] file enter the
    environment; a variable that is set already keeps its value. *)
Definition load_dotenv (dotenv environ : gmap string string)
  : gmap string string :=
  environ ∪ dotenv.

(** [os.getenv(key, default)] *)
Definition os_getenv (environ : gmap string string) (key : string)
    (default : option string) : option string :=
  match environ !! key with
  | Some v => Some v
  | None => default
  end.

(** [st.secrets.get(key, default)], for secrets that are strings: the
    value, and the environment as the call leaves it.  [secrets] is [None]
    when there is no secrets file; reading a secret then raises, and [get]
    only catches a missing key.  Reading the secrets also copies every
    top-level secret into [os.environ], over the value a variable has
    there. *)
Definition st_secrets_get (secrets : option (gmap string string))
    (environ : gmap string string) (key : string) (default : option string)
  : import_result (option string * gmap string string) :=
  match secrets with
  | None => SecretsNotFound
  | Some m =>
      Imported (match m !! key with
                | Some v => Some v
                | None => default
                end,
                m ∪ environ)
  end.

(** The two assignments at the top of the module: [AIO_USERNAME] and
    [AIO_KEY].  The default of [os.getenv] is an argument, so the secrets
    are read, and copied into the environment, before the environment is
    looked at. *)
Definition module_config (dotenv environ : gmap string string)
    (secrets : option (gmap string string))
  : import_result (option string * option string) :=
  let environ := load_dotenv dotenv environ in
  match st_secrets_get secrets environ "AIO_USERNAME" (Some "emon4075") with
  | SecretsNotFound => SecretsNotFound
  | Imported (fallback_username, environ) =>
      let username := os_getenv environ "AIO_USERNAME" fallback_username in
      match st_secrets_get secrets environ "AIO_KEY" None with
      | SecretsNotFound => SecretsNotFound
      | Imported (fallback_key, environ) =>
          Imported (username, os_getenv environ "AIO_KEY" fallback_key)
      end
  end.

(** The first value that is set. *)
Fixpoint first_set (candidates : list (option string)) : option string :=
  match candidates with
  | [] => None
  | Some v :: _ => Some v
  | None :: rest => first_set rest
  end.

Definition reversed_batch : list pyval :=
  [record "2024-01-01T00:00:01Z" "24.5"; record "2024-01-01T00:00:02Z" "25.0"].

(** A network that answers every request with status 300 and a body of
    records. *)
Definition network_multiple_choices (n : nat) (req : request)
  : request_error * string + response :=
  inr (mk_response 300 "Multiple Choices" (req_url req)
         (inr (PList humidity_records))).

(** * Properties *)

(** ** The loop of [process_data] *)

Lemma parse_created_at_Exception entry e :
  parse_created_at entry = Raise e → is_Exception e = true.
Proof.
  unfold parse_created_at, getitem, replace_method, obind.
  intros H. repeat case_match; simplify_eq; done.
Qed.

Lemma parse_value_Exception entry e :
  parse_value entry = Raise e → is_Exception e = true.
Proof.
  unfold parse_value, getitem, py_float, obind.
  intros H. repeat case_match; simplify_eq; done.
Qed.

Lemma show_show evs1 evs2 w : show evs2 (show evs1 w) = show (evs1 ++ evs2) w.
Proof. unfold show; simpl. by rewrite app_assoc. Qed.

Lemma show_nil w : show [] w = w.
Proof. destruct w. unfold show; simpl. by rewrite app_nil_r. Qed.

(** The loop collects, in order, the timestamps that parse and the values
    of the records that parse as a whole, and warns once for every other
    record. *)
Lemma process_entries_spec entries times values w :
  process_entries entries times values w
  = (Ok (times ++ omap time_of entries,
         values ++ (snd <$> omap point_of entries)),
     show (omap warning_of entries) w).
Proof.
  revert times values w.
  induction entries as [|entry rest IH]; intros times values w; simpl.
  - by rewrite !app_nil_r, show_nil.
  - unfold try_entry, time_of, point_of, warning_of, failure_of.
    destruct (parse_created_at entry) as [dt|e] eqn:Ht.
    + destruct (parse_value entry) as [f|e] eqn:Hv; simpl.
      * rewrite IH. by rewrite <- !app_assoc.
      * rewrite (parse_value_Exception _ _ Hv).
        unfold bind, emit. rewrite IH. fold (show [st_warning_skipping entry e] w).
        rewrite show_show. by rewrite <- !app_assoc.
    + simpl. rewrite (parse_created_at_Exception _ _ Ht).
      unfold bind, emit. rewrite IH. fold (show [st_warning_skipping entry e] w).
      by rewrite show_show.
Qed.

Lemma point_of_time_of entry p : point_of entry = Some p → time_of entry = Some p.1.
Proof.
  unfold point_of, time_of. intros H. repeat case_match; simplify_eq; done.
Qed.

Lemma half_parsed_false entry :
  half_parsed entry = false → time_of entry = fst <$> point_of entry.
Proof.
  unfold half_parsed, parses, point_of, time_of.
  destruct (parse_created_at entry); [|done].
  destruct (parse_value entry); [done|].
  simpl. discriminate.
Qed.

Lemma half_parsed_true entry :
  half_parsed entry = true → is_Some (time_of entry) ∧ point_of entry = None.
Proof.
  unfold half_parsed, parses. intros [H1 H2]%andb_true_iff.
  apply bool_decide_eq_true in H1. apply negb_true_iff in H2.
  apply bool_decide_eq_false in H2. split; [done|].
  destruct (point_of entry); [|done]. exfalso. eauto.
Qed.

Lemma points_le_times entries :
  (length (omap point_of entries) ≤ length (omap time_of entries))%nat.
Proof.
  induction entries as [|entry rest IH]; csimpl; [done|].
  destruct (point_of entry) as [p|] eqn:Hp.
  - rewrite (point_of_time_of _ _ Hp). csimpl. lia.
  - destruct (time_of entry); csimpl; lia.
Qed.

Lemma half_parsed_lengths entries :
  existsb half_parsed entries = true →
  (length (omap point_of entries) < length (omap time_of entries))%nat.
Proof.
  induction entries as [|entry rest IH]; csimpl; [done|].
  intros [H|H]%orb_true_iff.
  - apply half_parsed_true in H as [[dt ->] ->]. csimpl.
    pose proof (points_le_times rest). lia.
  - specialize (IH H). destruct (point_of entry) as [p|] eqn:Hp.
    + rewrite (point_of_time_of _ _ Hp). csimpl. lia.
    + destruct (time_of entry); csimpl; lia.
Qed.

Lemma no_half_parsed_times entries :
  existsb half_parsed entries = false →
  omap time_of entries = fst <$> omap point_of entries.
Proof.
  induction entries as [|entry rest IH]; csimpl; [done|].
  intros [H1 H2]%orb_false_iff. rewrite (half_parsed_false _ H1).
  destruct (point_of entry); csimpl; by rewrite IH.
Qed.

(** What [process_data] does, case by case. *)
Lemma process_data_spec data entries w :
  py_iter data = Ok entries →
  process_data data w
  = (if existsb half_parsed entries then Raise ValueError
     else if has_aware (unsorted entries) && has_naive (unsorted entries)
     then Raise TypeError
     else Ok (reset_index (merge_sort row_le (unsorted entries))),
     show (omap warning_of entries) w).
Proof.
  intros Hit. unfold process_data, bind, lift. rewrite Hit.
  rewrite process_entries_spec. csimpl.
  destruct (existsb half_parsed entries) eqn:Hh.
  - apply half_parsed_lengths in Hh. unfold new_DataFrame.
    rewrite bool_decide_eq_false_2; [done|].
    rewrite length_fmap. lia.
  - rewrite (no_half_parsed_times _ Hh). unfold new_DataFrame.
    rewrite bool_decide_eq_true_2 by (by rewrite !length_fmap).
    rewrite zip_fst_snd. fold (unsorted entries).
    unfold sort_values, ret.
    by destruct (has_aware (unsorted entries) && has_naive (unsorted entries)).
Qed.

(** ** Sorting and relabelling *)

Global Instance row_le_trans : Transitive row_le.
Proof. unfold row_le. intros a b c. lia. Qed.

Global Instance row_le_total : Total row_le.
Proof. unfold row_le. intros a b. lia. Qed.

Lemma StronglySorted_lookup {A} (R : relation A) (l : list A) i j a b :
  StronglySorted R l → (i < j)%nat →
  l !! i = Some a → l !! j = Some b → R a b.
Proof.
  intros Hs Hij Hi Hj.
  rewrite <- (take_drop j l) in Hs.
  eapply StronglySorted_app_1_elem_of; [exact Hs| |].
  - apply list_elem_of_lookup. exists i. by rewrite lookup_take_lt.
  - apply list_elem_of_lookup. exists 0%nat. rewrite lookup_drop.
    by rewrite Nat.add_0_r.
Qed.

Lemma point_with_index i r : point (with_index i r) = point r.
Proof. done. Qed.

Lemma reset_index_points df : point <$> reset_index df = point <$> df.
Proof.
  unfold reset_index. apply list_eq. intros i.
  rewrite !list_lookup_fmap, list_lookup_imap.
  by destruct (df !! i).
Qed.

Lemma reset_index_lookup df i r :
  reset_index df !! i = Some r →
  row_index r = i ∧ ∃ r0, df !! i = Some r0 ∧ point r = point r0.
Proof.
  unfold reset_index. rewrite list_lookup_imap.
  destruct (df !! i) as [r0|]; [|done].
  intros [= <-]. eauto.
Qed.

Lemma unsorted_points entries : point <$> unsorted entries = omap point_of entries.
Proof.
  unfold unsorted. apply list_eq. intros i.
  rewrite list_lookup_fmap, list_lookup_imap.
  by destruct (omap point_of entries !! i) as [[??]|].
Qed.

Lemma length_unsorted entries :
  length (unsorted entries) = length (omap point_of entries).
Proof. unfold unsorted. apply length_imap. Qed.


Lemma point_of_Some entry t v :
  point_of entry = Some (t, v) →
  parse_created_at entry = Ok t ∧ parse_value entry = Ok v.
Proof.
  unfold point_of. intros H. repeat case_match; simplify_eq; done.
Qed.

Lemma length_omap_le {A B} (f : A → option B) (l : list A) :
  (length (omap f l) ≤ length l)%nat.
Proof. induction l as [|x l IH]; csimpl; [done|]. destruct (f x); simpl; lia. Qed.




(** In a table without a naive next to an aware value, Python's [<=] on
    two of its timestamps is defined, and is the order of the instants. *)
Lemma datetime_le_uniform (df : DataFrame) a b :
  has_aware df && has_naive df = false →
  a ∈ df → b ∈ df → row_le a b →
  datetime_le (row_time a) (row_time b) = Ok true.
Proof.
  intros Hu Ha Hb Hle. unfold datetime_le.
  assert (aware (row_time a) = aware (row_time b)) as ->.
  { destruct (aware (row_time a)) eqn:Ea, (aware (row_time b)) eqn:Eb;
      try done; exfalso.
    - assert (has_aware df = true) as H1.
      { apply existsb_exists. exists a. split; [by apply list_elem_of_In|done]. }
      assert (has_naive df = true) as H2.
      { apply existsb_exists. exists b. split; [by apply list_elem_of_In|].
        simpl. unfold naive. by rewrite Eb. }
      by rewrite H1, H2 in Hu.
    - assert (has_aware df = true) as H1.
      { apply existsb_exists. exists b. split; [by apply list_elem_of_In|done]. }
      assert (has_naive df = true) as H2.
      { apply existsb_exists. exists a. split; [by apply list_elem_of_In|].
        simpl. unfold naive. by rewrite Ea. }
      by rewrite H1, H2 in Hu. }
  rewrite bool_decide_eq_true_2 by done.
  by rewrite bool_decide_eq_true_2.
Qed.

(** ** [process_data]: the claims *)

(** C2 (what the code does instead): a record whose timestamp parses and
    whose value does not leaves its timestamp in [times]; the two columns
    then differ in length and [process_data] raises [ValueError] when it
    builds the table, so no Series is returned for the batch. *)
Theorem process_data_half_parsed_raises data entries w :
  py_iter data = Ok entries →
  existsb half_parsed entries = true →
  process_data data w = (Raise ValueError, show (omap warning_of entries) w).
Proof.
  intros Hit Hh. rewrite (process_data_spec _ _ _ Hit). by rewrite Hh.
Qed.

Lemma process_data_half_parsed_raises_witness :
  py_iter (PList batch_with_NA) = Ok batch_with_NA
  ∧ existsb half_parsed batch_with_NA = true
  ∧ process_data (PList batch_with_NA) fresh
    = (Raise ValueError, show (omap warning_of batch_with_NA) fresh).
Proof.
  split; [reflexivity|]. split; [vm_compute; reflexivity|].
  apply process_data_half_parsed_raises; vm_compute; reflexivity.
Defined.

(** The same batch, evaluated: the warning names the record, and the call
    ends in the exception. *)
Example process_data_NA :
  process_data (PList batch_with_NA) fresh
  = (Raise ValueError,
     show [st_warning_skipping (record "2024-01-01T00:00:01Z" "N/A") ValueError]
          fresh).
Proof. vm_compute. reflexivity. Qed.

(** A record whose timestamp does not parse is skipped, and the rest of
    the batch is returned. *)
Example process_data_bad_time :
  process_data (PList batch_with_bad_time) fresh
  = (Ok [mk_row 0 (utc 2024 1 1 0 0 0) (FDec false 25 0);
         mk_row 1 (utc 2024 1 1 0 0 2) (FDec false 245 (-1))],
     show [st_warning_skipping (record "yesterday" "26.0") ValueError] fresh).
Proof. vm_compute. reflexivity. Qed.




(** C4 as stated fails for the null input: [None] cannot be iterated, and
    [process_data] raises. *)
Lemma process_data_null_raises :
  process_data PNone fresh = (Raise TypeError, fresh).
Proof. reflexivity. Qed.

(** C4 (amended): an empty list gives the empty table, and nothing is
    raised or reported.  A null result is not normalised at all: with
    [None] for either feed the run shows that the data could not be
    fetched and returns at its guard, before [process_data] is called. *)
Theorem process_data_empty w :
  process_data (PList []) w = (Ok [], w)
  ∧ empty [] = true
  ∧ ∀ other,
      render PNone other w = (Ok tt, show [unable_to_fetch] w)
      ∧ render other PNone w = (Ok tt, show [unable_to_fetch] w).
Proof.
  split; [|split; [reflexivity|]].
  - rewrite (process_data_spec _ []) by reflexivity. simpl. by rewrite show_nil.
  - intros other. split; [reflexivity|].
    unfold render. by rewrite orb_true_r.
Qed.

(** The same for any world, not only a fresh one. *)
Example process_data_None w : process_data PNone w = (Raise TypeError, w).
Proof. reflexivity. Qed.

(** C9: when [process_data] returns a table, the input could be iterated,
    the table has no more rows than the input has records, and its points
    are exactly the points of the records that parse, each as often as it
    occurs there; so every row shows the parsed fields of some record. *)
Theorem process_data_no_fabrication data w df w' :
  process_data data w = (Ok df, w') →
  ∃ entries, py_iter data = Ok entries
    ∧ (length df ≤ length entries)%nat
    ∧ point <$> df ≡ₚ omap point_of entries
    ∧ ∀ r, r ∈ df →
        ∃ entry, entry ∈ entries
          ∧ parse_created_at entry = Ok (row_time r)
          ∧ parse_value entry = Ok (row_value r).
Proof.
  intros Hrun.
  destruct (py_iter data) as [entries|e] eqn:Hit; cycle 1.
  { unfold process_data, bind, lift in Hrun. by rewrite Hit in Hrun. }
  exists entries. split; [done|].
  rewrite (process_data_spec _ _ _ Hit) in Hrun.
  destruct (existsb half_parsed entries); [done|].
  destruct (has_aware (unsorted entries) && has_naive (unsorted entries)); [done|].
  injection Hrun as <- <-.
  pose proof (merge_sort_Permutation row_le (unsorted entries)) as Hperm.
  assert (point <$> reset_index (merge_sort row_le (unsorted entries))
          ≡ₚ omap point_of entries) as Hpts.
  { rewrite reset_index_points, Hperm. by rewrite unsorted_points. }
  split; [|split; [exact Hpts|]].
  - unfold reset_index. rewrite length_imap, Hperm, length_unsorted.
    apply length_omap_le.
  - intros r Hr.
    assert (point r ∈ omap point_of entries) as Hin.
    { rewrite <- Hpts. by apply list_elem_of_fmap_2. }
    apply list_elem_of_omap in Hin as (entry & Hentry & Hp).
    exists entry. split; [done|]. by apply point_of_Some.
Qed.

Lemma process_data_no_fabrication_witness :
  ∃ entries, py_iter (PList batch_with_bad_time) = Ok entries
    ∧ (length [mk_row 0 (utc 2024 1 1 0 0 0) (FDec false 25 0);
               mk_row 1 (utc 2024 1 1 0 0 2) (FDec false 245 (-1))]
       ≤ length entries)%nat
    ∧ point <$> [mk_row 0 (utc 2024 1 1 0 0 0) (FDec false 25 0);
                 mk_row 1 (utc 2024 1 1 0 0 2) (FDec false 245 (-1))]
      ≡ₚ omap point_of entries
    ∧ ∀ r, r ∈ [mk_row 0 (utc 2024 1 1 0 0 0) (FDec false 25 0);
                mk_row 1 (utc 2024 1 1 0 0 2) (FDec false 245 (-1))] →
        ∃ entry, entry ∈ entries
          ∧ parse_created_at entry = Ok (row_time r)
          ∧ parse_value entry = Ok (row_value r).
Proof.
  apply (process_data_no_fabrication (PList batch_with_bad_time) fresh _
           (show [st_warning_skipping (record "yesterday" "26.0") ValueError]
                 fresh)).
  vm_compute. reflexivity.
Defined.

(** ** Timestamps written with a [Z] *)

Lemma replace_Z_app s1 s2 : replace_Z (s1 +:+ s2) = replace_Z s1 +:+ replace_Z s2.
Proof.
  induction s1 as [|c s1 IH]; [done|]. simpl.
  destruct (decide (c = "Z"%char)); simpl; by rewrite IH.
Qed.

Lemma replace_Z_id s : contains_char "Z" s = false → replace_Z s = s.
Proof.
  induction s as [|c s IH]; [done|]. simpl.
  intros [Hc Hs]%orb_false_iff. apply bool_decide_eq_false in Hc.
  destruct (decide (c = "Z"%char)); [congruence|]. by rewrite IH.
Qed.

Lemma parse_created_at_dict created_at value :
  parse_created_at (PDict [("created_at", PStr created_at); ("value", value)])
  = match fromisoformat (replace_Z created_at) with
    | Some dt => Ok dt
    | None => Raise ValueError
    end.
Proof. reflexivity. Qed.

Lemma parse_value_record created_at value :
  parse_value (record created_at value)
  = match float_of_string value with
    | Some f => Ok f
    | None => Raise ValueError
    end.
Proof. reflexivity. Qed.

Lemma point_of_half_parsed entry p : point_of entry = Some p → half_parsed entry = false.
Proof.
  intros Hp. unfold half_parsed, parses. rewrite Hp.
  rewrite (bool_decide_eq_true_2 (is_Some (Some p))) by eauto.
  by rewrite andb_false_r.
Qed.

Lemma point_of_warning entry p : point_of entry = Some p → warning_of entry = None.
Proof.
  destruct p as [t v]. intros [Ht Hv]%point_of_Some.
  unfold warning_of, failure_of. by rewrite Ht, Hv.
Qed.

(** One record that parses gives a table of one row. *)
Lemma process_data_single entry dt f w :
  point_of entry = Some (dt, f) →
  process_data (PList [entry]) w = (Ok [mk_row 0 dt f], w).
Proof.
  intros Hp. rewrite (process_data_spec _ [entry]) by reflexivity.
  unfold unsorted. csimpl.
  rewrite Hp, (point_of_half_parsed _ _ Hp), (point_of_warning _ _ Hp).
  csimpl. rewrite show_nil. unfold has_aware, has_naive, naive. simpl.
  by destruct (aware dt).
Qed.

(** C6: [replace] turns a trailing [Z] into [+00:00], which
    [fromisoformat] reads as the offset zero: the record stamped
    [2024-01-01T00:00:00Z] gets the aware timestamp
    [2024-01-01T00:00:00+00:00], and keeps it in the table. *)
Theorem created_at_Z_is_utc value w :
  (∀ s, replace_Z (s +:+ "Z") = replace_Z s +:+ "+00:00")
  ∧ replace_Z "2024-01-01T00:00:00Z" = "2024-01-01T00:00:00+00:00"
  ∧ fromisoformat "2024-01-01T00:00:00+00:00" = Some (utc 2024 1 1 0 0 0)
  ∧ tzinfo (utc 2024 1 1 0 0 0) = Some 0
  ∧ parse_created_at
      (PDict [("created_at", PStr "2024-01-01T00:00:00Z"); ("value", value)])
    = Ok (utc 2024 1 1 0 0 0)
  ∧ process_data (PList [record "2024-01-01T00:00:00Z" "25.0"]) w
    = (Ok [mk_row 0 (utc 2024 1 1 0 0 0) (FDec false 25 0)], w).
Proof.
  split; [intros s; apply replace_Z_app|].
  split; [reflexivity|]. split; [vm_compute; reflexivity|].
  split; [reflexivity|].
  split; [rewrite parse_created_at_dict; vm_compute; reflexivity|].
  apply process_data_single. vm_compute. reflexivity.
Qed.

(** ** What [float] accepts *)

Lemma whitespace_plain c :
  is_whitespace c = true → bool_decide (c = "_"%char) = false ∧ is_digit c = false.
Proof.
  destruct c as [[] [] [] [] [] [] [] []]; vm_compute; intros H;
    first [discriminate H | split; reflexivity].
Qed.

Lemma strip_underscores_prev a b s :
  is_digit a = is_digit b →
  bool_decide (a = "_"%char) = bool_decide (b = "_"%char) →
  strip_underscores a s = strip_underscores b s.
Proof. intros Hd Hu. destruct s as [|c s]; simpl; by rewrite ?Hd, ?Hu. Qed.

Lemma strip_underscores_whitespace prev p :
  all_whitespace p = true → bool_decide (prev = "_"%char) = false →
  strip_underscores prev p = Some p.
Proof.
  revert prev. induction p as [|c p IH]; intros prev Hp Hprev; simpl.
  - by rewrite Hprev.
  - simpl in Hp. apply andb_true_iff in Hp as [Hc Hp].
    destruct (whitespace_plain _ Hc) as [Hcu Hcd].
    rewrite Hcu, Hprev. simpl. by rewrite (IH c Hp Hcu).
Qed.

Lemma strip_underscores_padded_right prev s p :
  all_whitespace p = true →
  strip_underscores prev (s +:+ p) = (λ x, x +:+ p) <$> strip_underscores prev s.
Proof.
  intros Hp. revert prev. induction s as [|c s IH]; intros prev; simpl.
  - destruct (bool_decide (prev = "_"%char)) eqn:Hprev; simpl.
    + destruct p as [|c p]; simpl; [by rewrite Hprev|].
      simpl in Hp. apply andb_true_iff in Hp as [Hc _].
      destruct (whitespace_plain _ Hc) as [-> ->]. by rewrite Hprev.
    + by apply strip_underscores_whitespace.
  - destruct (bool_decide (c = "_"%char)).
    + destruct (is_digit prev); [apply IH|done].
    + destruct (bool_decide (prev = "_"%char) && negb (is_digit c)); [done|].
      rewrite IH. by destruct (strip_underscores c s).
Qed.

Lemma strip_underscores_padded_left prev p s :
  all_whitespace p = true →
  bool_decide (prev = "_"%char) = false → is_digit prev = false →
  strip_underscores prev (p +:+ s)
  = (λ x, p +:+ x) <$> strip_underscores "000"%char s.
Proof.
  intros Hp. revert prev. induction p as [|c p IH]; intros prev Hu Hd.
  - change (EmptyString +:+ s) with s.
    rewrite (strip_underscores_prev prev "000"%char s) by (by rewrite ?Hd, ?Hu).
    by destruct (strip_underscores _ s).
  - simpl in Hp. apply andb_true_iff in Hp as [Hc Hp].
    destruct (whitespace_plain _ Hc) as [Hcu Hcd].
    simpl. rewrite Hcu, Hu. simpl. rewrite (IH Hp c Hcu Hcd).
    by destruct (strip_underscores _ s).
Qed.

Lemma lstrip_whitespace p : all_whitespace p = true → lstrip p = EmptyString.
Proof.
  induction p as [|c p IH]; [done|]. simpl.
  intros [-> Hp]%andb_true_iff. by apply IH.
Qed.

Lemma lstrip_padded_left p s : all_whitespace p = true → lstrip (p +:+ s) = lstrip s.
Proof.
  induction p as [|c p IH]; [done|]. simpl.
  intros [-> Hp]%andb_true_iff. by apply IH.
Qed.

Lemma rstrip_whitespace p : all_whitespace p = true → rstrip p = EmptyString.
Proof.
  induction p as [|c p IH]; [done|]. simpl.
  intros [-> Hp]%andb_true_iff. by rewrite (IH Hp).
Qed.

Lemma rstrip_padded_right s p : all_whitespace p = true → rstrip (s +:+ p) = rstrip s.
Proof.
  intros Hp. induction s as [|c s IH]; simpl.
  - by apply rstrip_whitespace.
  - by rewrite IH.
Qed.

Lemma strip_padded p1 s p2 :
  all_whitespace p1 = true → all_whitespace p2 = true →
  strip (p1 +:+ s +:+ p2) = strip s.
Proof.
  intros H1 H2. unfold strip. rewrite (lstrip_padded_left _ _ H1).
  induction s as [|c s IH].
  - change (EmptyString +:+ p2) with p2. by rewrite (lstrip_whitespace _ H2).
  - change (String c s +:+ p2) with (String c (s +:+ p2)).
    cbn [lstrip]. destruct (is_whitespace c); [exact IH|].
    apply (rstrip_padded_right (String c s) _ H2).
Qed.

Lemma float_of_string_padded p1 s p2 :
  all_whitespace p1 = true → all_whitespace p2 = true →
  float_of_string (p1 +:+ s +:+ p2) = float_of_string s.
Proof.
  intros H1 H2. unfold float_of_string.
  rewrite (strip_underscores_padded_left _ _ _ H1) by reflexivity.
  rewrite (strip_underscores_padded_right _ _ _ H2).
  destruct (strip_underscores _ s) as [s1|]; simpl; [|done].
  by rewrite (strip_padded _ _ _ H1 H2).
Qed.

(** C10: [float] reads [nan], [inf] and [-Infinity], and a numeral with
    white space around it as the numeral itself; such a record is kept, so
    a table can hold values that are not finite.  A numeral beyond the
    range of binary64 is read as an infinity too. *)
Theorem float_literals_kept (pad1 pad2 s created_at : string) dt f w :
  all_whitespace pad1 = true →
  all_whitespace pad2 = true →
  float_of_string s = Some f →
  fromisoformat (replace_Z created_at) = Some dt →
  float_of_string (pad1 +:+ s +:+ pad2) = Some f
  ∧ process_data (PList [record created_at (pad1 +:+ s +:+ pad2)]) w
    = (Ok [mk_row 0 dt f], w)
  ∧ float_of_string "nan" = Some FNan
  ∧ float_of_string "inf" = Some (FInf false)
  ∧ float_of_string "-Infinity" = Some (FInf true)
  ∧ float_of_string " 25.5 " = Some (FDec false 255 (-1))
  ∧ float_of_string "1e400" = Some (FInf false)
  ∧ is_finite FNan = false
  ∧ is_finite (FInf false) = false
  ∧ is_finite (FInf true) = false
  ∧ process_data (PList literals_batch) w
    = (Ok [mk_row 0 (utc 2024 1 1 0 0 0) FNan;
           mk_row 1 (utc 2024 1 1 0 0 1) (FInf false);
           mk_row 2 (utc 2024 1 1 0 0 2) (FInf true);
           mk_row 3 (utc 2024 1 1 0 0 3) (FDec false 255 (-1))], w).
Proof.
  intros H1 H2 Hf Ht.
  assert (float_of_string (pad1 +:+ s +:+ pad2) = Some f) as Hpad.
  { by rewrite float_of_string_padded. }
  split; [exact Hpad|]. split.
  { apply process_data_single. unfold point_of, record.
    rewrite parse_created_at_dict, Ht.
    fold (record created_at (pad1 +:+ s +:+ pad2)).
    by rewrite parse_value_record, Hpad. }
  repeat (split; [vm_compute; reflexivity|]).
  rewrite (process_data_spec _ literals_batch) by reflexivity.
  change (omap warning_of literals_batch) with (@nil st_event).
  rewrite show_nil. f_equal.
Qed.

(** The separators 0x1C to 0x1F are not dropped: a value padded with one
    is not a number. *)
Example float_of_string_separator :
  float_of_string (String "028" "1") = None
  ∧ float_of_string (String "009" "1") = Some (FDec false 1 0)
  ∧ float_of_string "1e-400" = Some (FDec false 0 0)
  ∧ float_of_string "1.7976931348623157e308"
    = Some (FDec false 17976931348623157 292).
Proof. vm_compute. repeat split. Qed.

Lemma float_literals_kept_witness :
  float_of_string (" " +:+ "1e3" +:+ "  ") = Some (FDec false 1 3)
  ∧ process_data (PList [record "2024-01-01T00:00:00Z" (" " +:+ "1e3" +:+ "  ")])
      fresh
    = (Ok [mk_row 0 (utc 2024 1 1 0 0 0) (FDec false 1 3)], fresh).
Proof.
  pose proof (float_literals_kept " " "  " "1e3" "2024-01-01T00:00:00Z"
                (utc 2024 1 1 0 0 0) (FDec false 1 3) fresh
                eq_refl eq_refl eq_refl eq_refl) as H.
  split; [exact (proj1 H)|exact (proj1 (proj2 H))].
Defined.

(** ** The fetcher *)

Section AppProperties.

Context (AIO_USERNAME : string) (AIO_KEY : option string).
Context (network : nat → request → request_error * string + response).

Local Abbreviation fetch := (get_feed_data AIO_USERNAME AIO_KEY network).
Local Abbreviation fetch_cached := (get_feed_data_cached AIO_USERNAME AIO_KEY network).
Local Abbreviation request_for := (feed_request AIO_USERNAME AIO_KEY).
Local Abbreviation dashboard := (create_dashboard AIO_USERNAME AIO_KEY network).

(** What the fetcher has in hand once the network has answered. *)
Lemma get_feed_data_spec feed_key limit w :
  let req := request_for feed_key limit in
  let failed cause :=
    (Ok PNone, show [fetch_error feed_key cause] (send req w)) in
  fetch feed_key limit w
  = match network (length (sent w)) req with
    | inl (_, msg) => failed msg
    | inr r =>
        if bool_decide (400 ≤ status_code r < 500)
        then failed (http_error_msg "Client" r)
        else if bool_decide (500 ≤ status_code r < 600)
        then failed (http_error_msg "Server" r)
        else match resp_json r with
             | inl msg => failed msg
             | inr v => (Ok v, send req w)
             end
    end.
Proof.
  simpl. unfold get_feed_data, try_except, bind, requests_get.
  fold (request_for feed_key limit).
  destruct (network _ _) as [[k msg]|r]; [done|].
  unfold raise_for_status, response_json, raise, ret.
  destruct (bool_decide (400 ≤ status_code r < 500)); [done|].
  destruct (bool_decide (500 ≤ status_code r < 600)); [done|].
  by destruct (resp_json r).
Qed.

(** C5 (amended): [get_feed_data] catches what [requests] raises as a
    [RequestException].  When the transport raises, when the status is an
    error status (400 to 599), or when the body is not JSON, it shows one
    message that names the feed and the cause and returns [None], the same
    in the three cases.  With any other status, also one that is not a
    success status, and a body that decodes, it returns the decoded body
    and shows nothing. *)
Theorem get_feed_data_catches_request_errors feed_key limit w :
  let req := request_for feed_key limit in
  let answer := network (length (sent w)) req in
  let failed cause :=
    fetch feed_key limit w
    = (Ok PNone, show [fetch_error feed_key cause] (send req w)) in
  (∀ k msg, answer = inl (k, msg) → failed msg)
  ∧ (∀ r, answer = inr r → 400 ≤ status_code r < 600 →
       ∃ kind, failed (http_error_msg kind r))
  ∧ (∀ r msg, answer = inr r → ¬ 400 ≤ status_code r < 600 →
       resp_json r = inl msg → failed msg)
  ∧ (∀ r v, answer = inr r → ¬ 400 ≤ status_code r < 600 →
       resp_json r = inr v →
       fetch feed_key limit w = (Ok v, send req w)).
Proof.
  intros req answer failed. subst failed. cbv beta.
  rewrite get_feed_data_spec. fold req. fold answer.
  split; [|split; [|split]].
  - by intros k msg ->.
  - intros r -> Hs.
    destruct (decide (status_code r < 500)).
    + exists "Client". rewrite bool_decide_eq_true_2 by lia. done.
    + exists "Server". rewrite bool_decide_eq_false_2 by lia.
      rewrite bool_decide_eq_true_2 by lia. done.
  - intros r msg -> Hs ->.
    rewrite !bool_decide_eq_false_2 by lia. done.
  - intros r v -> Hs ->.
    rewrite !bool_decide_eq_false_2 by lia. done.
Qed.

(** C8: every call sends one GET request to the data endpoint of the feed
    under the account, with the key in the header [X-AIO-Key] and the
    limit as the query parameter [limit]; a call without a limit sends the
    default, 500. *)
Theorem get_feed_data_request feed_key limit w :
  sent (fetch feed_key limit w).2
  = sent w ++
    [mk_request "GET"
       ("https://io.adafruit.com/api/v2/" +:+ AIO_USERNAME +:+ "/feeds/"
        +:+ feed_key +:+ "/data")
       [("X-AIO-Key", AIO_KEY)]
       [("limit", match limit with Some n => n | None => 500 end)]]
  ∧ LIMIT = 500.
Proof.
  split; [|reflexivity].
  rewrite get_feed_data_spec. cbv zeta.
  change (request_for feed_key limit) with
    (mk_request "GET"
       ("https://io.adafruit.com/api/v2/" +:+ AIO_USERNAME +:+ "/feeds/"
        +:+ feed_key +:+ "/data")
       [("X-AIO-Key", AIO_KEY)]
       [("limit", match limit with Some n => n | None => 500 end)]).
  repeat case_match; done.
Qed.

(** ** The cache *)

Lemma get_feed_data_world feed_key limit w :
  ∃ v msgs, fetch feed_key limit w
            = (Ok v, show msgs (send (request_for feed_key limit) w)).
Proof.
  rewrite get_feed_data_spec. cbv zeta.
  destruct (network _ _) as [[k msg]|r]; [by eexists _, [_]|].
  destruct (bool_decide (400 ≤ status_code r < 500)); [by eexists _, [_]|].
  destruct (bool_decide (500 ≤ status_code r < 600)); [by eexists _, [_]|].
  destruct (resp_json r) as [msg|v]; [by eexists _, [_]|].
  exists v, []. by rewrite show_nil.
Qed.

(** A call that finds no valid entry runs the function and stores what it
    returned and showed, valid for 600 seconds. *)
Lemma get_feed_data_cached_miss feed_key limit w :
  (∀ e, cache w !! (feed_key, limit) = Some e → expires e ≤ clock w) →
  ∃ v msgs,
    fetch_cached feed_key limit w
    = (Ok v,
       mk_world (page w ++ msgs)
         (<[(feed_key, limit) := mk_cache_entry v msgs (clock w + 600)]> (cache w))
         (sent w ++ [request_for feed_key limit]) (clock w)).
Proof.
  intros Hstale.
  destruct (get_feed_data_world feed_key limit w) as (v & msgs & Hrun).
  exists v, msgs. unfold get_feed_data_cached, cache_data. rewrite Hrun. simpl.
  rewrite drop_app_length.
  destruct (cache w !! (feed_key, limit)) as [e|] eqn:He; [|done].
  rewrite bool_decide_eq_false_2; [done|].
  specialize (Hstale e eq_refl). lia.
Qed.

(** A call that finds a valid entry returns its value and sends nothing. *)
Lemma get_feed_data_cached_hit feed_key limit w e :
  cache w !! (feed_key, limit) = Some e →
  clock w < expires e →
  fetch_cached feed_key limit w = (Ok (cached_value e), show (cached_messages e) w).
Proof.
  intros He Hvalid. unfold get_feed_data_cached, cache_data. rewrite He.
  by rewrite bool_decide_eq_true_2.
Qed.

(** C7: a call that fetches stores its result under the arguments of the
    call; a later call with the same arguments, less than 600 seconds
    after it, returns the same value and sends no request.
    [st.cache_data.clear()] empties the cache, so the next call sends a
    request again; the refresh button does this before it restarts the
    script. *)
Theorem get_feed_data_memoized feed_key limit w :
  (∀ e, cache w !! (feed_key, limit) = Some e → expires e ≤ clock w) →
  ∃ v w1,
    fetch_cached feed_key limit w = (Ok v, w1)
    ∧ sent w1 = sent w ++ [request_for feed_key limit]
    ∧ (∀ w2, cache w2 !! (feed_key, limit) = cache w1 !! (feed_key, limit) →
         clock w2 < clock w + 600 →
         ∃ w3, fetch_cached feed_key limit w2 = (Ok v, w3)
               ∧ sent w3 = sent w2)
    ∧ (∀ w2, cache (cache_data_clear w2).2 = ∅
         ∧ ∃ v' w3,
             fetch_cached feed_key limit (cache_data_clear w2).2 = (Ok v', w3)
             ∧ sent w3 = sent w2 ++ [request_for feed_key limit])
    ∧ (∀ theme w2, ∃ w3,
         dashboard theme true w2 = (Raise RerunException, w3) ∧ cache w3 = ∅).
Proof.
  intros Hstale.
  destruct (get_feed_data_cached_miss _ _ _ Hstale) as (v & msgs & Hrun).
  eexists v, _. split; [exact Hrun|]. split; [done|]. split; [|split].
  - intros w2 Hsame Hsoon. simpl in Hsame.
    rewrite lookup_insert_eq in Hsame.
    eexists. split.
    + apply (get_feed_data_cached_hit _ _ _ _ Hsame). simpl. lia.
    + done.
  - intros w2. split; [done|].
    destruct (get_feed_data_cached_miss feed_key limit (cache_data_clear w2).2)
      as (v' & msgs' & Hrun').
    { simpl. intros e He. by rewrite lookup_empty in He. }
    eexists v', _. split; [exact Hrun'|done].
  - intros theme w2. eexists. split; [reflexivity|done].
Qed.

(** ** The dashboard *)

Lemma create_dashboard_fetches theme w :
  dashboard theme false w
  = (let! temp_data_raw := fetch_cached TEMP_FEED_KEY None in
     let! humid_data_raw := fetch_cached HUMID_FEED_KEY None in
     render temp_data_raw humid_data_raw) (show (header_events theme) w).
Proof.
  assert (∀ (ev : st_event) (k : M unit) w0,
            (emit ev;; k) w0 = k (show [ev] w0)) as Hemit by done.
  assert (∀ (k : M unit) w0, (ret tt;; k) w0 = k w0) as Hret by done.
  unfold create_dashboard.
  rewrite !Hemit, Hret, !Hemit, !show_show. reflexivity.
Qed.

(** C1 (amended): when either fetch returns [None], the run does not
    raise: it shows the message that the data could not be fetched and
    returns; neither raw result is normalised, and no chart or table is
    shown. *)
Theorem dashboard_stops_when_a_fetch_fails theme w temp humid w1 w2 :
  fetch_cached TEMP_FEED_KEY None (show (header_events theme) w) = (Ok temp, w1) →
  fetch_cached HUMID_FEED_KEY None w1 = (Ok humid, w2) →
  temp = PNone ∨ humid = PNone →
  render temp humid w2 = (Ok tt, show [unable_to_fetch] w2)
  ∧ dashboard theme false w = (Ok tt, show [unable_to_fetch] w2).
Proof.
  intros Ht Hh Hnone.
  assert (render temp humid w2 = (Ok tt, show [unable_to_fetch] w2)) as Hr.
  { unfold render. destruct Hnone as [-> | ->]; [done|].
    by rewrite orb_true_r. }
  split; [exact Hr|].
  rewrite create_dashboard_fetches. unfold bind at 1. rewrite Ht.
  unfold bind at 1. rewrite Hh. exact Hr.
Qed.

End AppProperties.

(** ** The properties at the example networks *)

Lemma get_feed_data_catches_request_errors_witness :
  get_feed_data "emon4075" None network_by_turn "temperature" None fresh
  = (Ok PNone,
     show [fetch_error "temperature" "timed out"]
       (send (feed_request "emon4075" None "temperature" None) fresh)).
Proof.
  apply (proj1 (get_feed_data_catches_request_errors "emon4075" None
                  network_by_turn "temperature" None fresh)
           Timeout "timed out").
  reflexivity.
Defined.

(** C5 as stated fails: status 300 is not a success status, and the body
    that comes with it is returned as the data of the feed; no message is
    shown and the result is not [None]. *)
Lemma get_feed_data_returns_body_of_status_300 :
  get_feed_data "emon4075" None network_multiple_choices "humidity" None fresh
  = (Ok (PList humidity_records),
     send (feed_request "emon4075" None "humidity" None) fresh).
Proof. vm_compute. reflexivity. Qed.

Lemma get_feed_data_memoized_witness :
  ∃ v w1,
    get_feed_data_cached "emon4075" None network_temperature_down
      "humidity" None fresh = (Ok v, w1)
    ∧ sent w1 = sent fresh ++ [feed_request "emon4075" None "humidity" None]
    ∧ (∀ w2, cache w2 !! ("humidity", None) = cache w1 !! ("humidity", None) →
         clock w2 < clock fresh + 600 →
         ∃ w3, get_feed_data_cached "emon4075" None network_temperature_down
                 "humidity" None w2 = (Ok v, w3)
               ∧ sent w3 = sent w2).
Proof.
  destruct (get_feed_data_memoized "emon4075" None network_temperature_down
              "humidity" None fresh) as (v & w1 & H1 & H2 & H3 & _).
  { intros e He. vm_compute in He. discriminate He. }
  exists v, w1. split; [exact H1|]. split; [exact H2|exact H3].
Defined.

(** C1 as stated fails: the temperature feed is down, the humidity feed
    answers with a record that would normalise, and the run shows the two
    error messages and neither a chart nor a table. *)
Lemma sibling_feed_not_processed :
  let run := create_dashboard "emon4075" None network_temperature_down
               "Light" false fresh in
  run.1 = Ok tt
  ∧ page run.2
    = header_events "Light"
      ++ [fetch_error "temperature" "connection refused"; unable_to_fetch]
  ∧ cached_value <$> cache run.2 !! ("humidity", None)
    = Some (PList humidity_records)
  ∧ process_data (PList humidity_records) fresh
    = (Ok [mk_row 0 (utc 2024 1 1 0 0 0) (FDec false 71 0)], fresh).
Proof. vm_compute. repeat split. Qed.

Lemma dashboard_stops_when_a_fetch_fails_witness :
  ∃ w2,
    render PNone (PList humidity_records) w2 = (Ok tt, show [unable_to_fetch] w2)
    ∧ create_dashboard "emon4075" None network_temperature_down "Light" false
        fresh
      = (Ok tt, show [unable_to_fetch] w2).
Proof.
  eexists.
  eapply (dashboard_stops_when_a_fetch_fails "emon4075" None
            network_temperature_down "Light" fresh PNone
            (PList humidity_records)).
  - vm_compute. reflexivity.
  - vm_compute. reflexivity.
  - left. reflexivity.
Defined.

(** The four answers of [network_by_turn]: three failures, each reported
    and turned into [None], and one success. *)
Example get_feed_data_by_turn :
  let fetch := get_feed_data "emon4075" None network_by_turn "humidity" None in
  let req := feed_request "emon4075" None "humidity" None in
  let url := "https://io.adafruit.com/api/v2/emon4075/feeds/humidity/data" in
  let w1 := send req fresh in
  let w2 := send req w1 in
  let w3 := send req w2 in
  fetch fresh = (Ok PNone, show [fetch_error "humidity" "timed out"] w1)
  ∧ fetch w1
    = (Ok PNone,
       show [fetch_error "humidity"
               ("404 Client Error: Not Found for url: " +:+ url)] w2)
  ∧ fetch w2
    = (Ok PNone,
       show [fetch_error "humidity" "Expecting value: line 1 column 1 (char 0)"]
            w3)
  ∧ fetch w3 = (Ok (PList humidity_records), send req w3).
Proof. vm_compute. repeat split. Qed.

(** The memo window: a result fetched at time 0 is served from the cache
    at time 599 and fetched again at time 600. *)
Example cache_window :
  let fetch := get_feed_data_cached "emon4075" None network_temperature_down
                 "humidity" None in
  let w1 := (fetch fresh).2 in
  length (sent w1) = 1%nat
  ∧ (fetch (at_time 599 w1)).1 = Ok (PList humidity_records)
  ∧ length (sent (fetch (at_time 599 w1)).2) = 1%nat
  ∧ length (sent (fetch (at_time 600 w1)).2) = 2%nat.
Proof. vm_compute. repeat split. Qed.

(** * Further properties *)

(** ** [process_data] on any input *)

Lemma failure_of_point_of entry : failure_of entry = None ↔ is_Some (point_of entry).
Proof.
  unfold failure_of, point_of.
  destruct (parse_created_at entry); [destruct (parse_value entry)|];
    split; (done || by intros [??] || eauto).
Qed.

(** Every record either yields a point or a warning. *)
Lemma points_plus_warnings entries :
  (length (omap point_of entries) + length (omap warning_of entries)
   = length entries)%nat.
Proof.
  induction entries as [|entry rest IH]; [done|]. csimpl.
  unfold warning_of at 1.
  destruct (failure_of entry) as [e|] eqn:Hf; csimpl.
  - destruct (point_of entry) as [p|] eqn:Hp.
    + assert (failure_of entry = None) by (apply failure_of_point_of; eauto).
      congruence.
    + simpl. lia.
  - apply failure_of_point_of in Hf as [p ->]. simpl. lia.
Qed.

Lemma process_data_Ok data w df w' :
  process_data data w = (Ok df, w') →
  ∃ entries, py_iter data = Ok entries
    ∧ existsb half_parsed entries = false
    ∧ has_aware (unsorted entries) && has_naive (unsorted entries) = false
    ∧ df = reset_index (merge_sort row_le (unsorted entries))
    ∧ w' = show (omap warning_of entries) w.
Proof.
  intros Hrun.
  destruct (py_iter data) as [entries|e] eqn:Hit; cycle 1.
  { unfold process_data, bind, lift in Hrun. by rewrite Hit in Hrun. }
  exists entries. split; [done|].
  rewrite (process_data_spec _ _ _ Hit) in Hrun.
  destruct (existsb half_parsed entries); [done|].
  destruct (has_aware (unsorted entries) && has_naive (unsorted entries)); [done|].
  by injection Hrun as <- <-.
Qed.

(** X1: whatever the input, a table that [process_data] returns is in
    ascending order of time under Python's [<=] and labelled 0, 1, ... *)
Theorem process_data_always_sorted data w df w' :
  process_data data w = (Ok df, w') →
  (∀ i j a b, (i < j)%nat → df !! i = Some a → df !! j = Some b →
     datetime_le (row_time a) (row_time b) = Ok true)
  ∧ (∀ i a, df !! i = Some a → row_index a = i).
Proof.
  intros (entries & _ & _ & Huni & -> & _)%process_data_Ok.
  pose proof (merge_sort_Permutation row_le (unsorted entries)) as Hperm.
  pose proof (StronglySorted_merge_sort row_le (unsorted entries)) as Hsort.
  split.
  - intros i j a b Hij Ha Hb.
    apply reset_index_lookup in Ha as (_ & a0 & Ha0 & Hpa).
    apply reset_index_lookup in Hb as (_ & b0 & Hb0 & Hpb).
    assert (row_time a = row_time a0) as -> by (by injection Hpa).
    assert (row_time b = row_time b0) as -> by (by injection Hpb).
    apply (datetime_le_uniform (unsorted entries)); [done| | |].
    + rewrite <- Hperm. apply list_elem_of_lookup. eauto.
    + rewrite <- Hperm. apply list_elem_of_lookup. eauto.
    + eapply StronglySorted_lookup; eauto.
  - intros i a Ha. by apply reset_index_lookup in Ha as [? _].
Qed.

Lemma process_data_always_sorted_witness :
  (∀ i j a b, (i < j)%nat →
     [mk_row 0 (utc 2024 1 1 0 0 0) (FDec false 25 0);
      mk_row 1 (utc 2024 1 1 0 0 2) (FDec false 245 (-1))] !! i = Some a →
     [mk_row 0 (utc 2024 1 1 0 0 0) (FDec false 25 0);
      mk_row 1 (utc 2024 1 1 0 0 2) (FDec false 245 (-1))] !! j = Some b →
     datetime_le (row_time a) (row_time b) = Ok true)
  ∧ (∀ i a,
       [mk_row 0 (utc 2024 1 1 0 0 0) (FDec false 25 0);
        mk_row 1 (utc 2024 1 1 0 0 2) (FDec false 245 (-1))] !! i = Some a →
       row_index a = i).
Proof.
  apply (process_data_always_sorted (PList batch_with_bad_time) fresh _
           (show [st_warning_skipping (record "yesterday" "26.0") ValueError]
                 fresh)).
  vm_compute. reflexivity.
Defined.

(** X2: when [process_data] returns, every record of the input is
    accounted for: it is a row of the table or it has a warning of its own
    on the page, which names the record and the exception that ended its
    [try]. Nothing else changes. *)
Theorem process_data_accounts_for_every_record data entries w df w' :
  py_iter data = Ok entries →
  process_data data w = (Ok df, w') →
  ∃ warnings,
    w' = show warnings w
    ∧ (length df + length warnings = length entries)%nat
    ∧ ∀ ev, ev ∈ warnings →
        ∃ entry e, entry ∈ entries ∧ failure_of entry = Some e
                   ∧ point_of entry = None
                   ∧ ev = st_warning_skipping entry e.
Proof.
  intros Hit (entries' & Hit' & _ & _ & -> & ->)%process_data_Ok.
  assert (entries' = entries) as -> by congruence.
  exists (omap warning_of entries). split; [done|]. split.
  - unfold reset_index. rewrite length_imap.
    rewrite (merge_sort_Permutation row_le (unsorted entries)).
    rewrite length_unsorted. apply points_plus_warnings.
  - intros ev (entry & Hin & Hw)%list_elem_of_omap.
    unfold warning_of in Hw.
    destruct (failure_of entry) as [e|] eqn:Hf; [|done].
    injection Hw as <-. exists entry, e. repeat split; try done.
    destruct (point_of entry) eqn:Hp; [|done].
    assert (failure_of entry = None) by (apply failure_of_point_of; eauto).
    congruence.
Qed.

Lemma process_data_accounts_for_every_record_witness :
  ∃ warnings,
    show [st_warning_skipping (record "yesterday" "26.0") ValueError] fresh
    = show warnings fresh
    ∧ (length [mk_row 0 (utc 2024 1 1 0 0 0) (FDec false 25 0);
               mk_row 1 (utc 2024 1 1 0 0 2) (FDec false 245 (-1))]
       + length warnings = length batch_with_bad_time)%nat
    ∧ ∀ ev, ev ∈ warnings →
        ∃ entry e, entry ∈ batch_with_bad_time ∧ failure_of entry = Some e
                   ∧ point_of entry = None
                   ∧ ev = st_warning_skipping entry e.
Proof.
  apply (process_data_accounts_for_every_record (PList batch_with_bad_time)
           batch_with_bad_time fresh).
  - reflexivity.
  - vm_compute. reflexivity.
Defined.

Lemma time_of_None_point_of entry : time_of entry = None → point_of entry = None.
Proof.
  intros Ht. destruct (point_of entry) as [p|] eqn:Hp; [|done].
  apply point_of_time_of in Hp. congruence.
Qed.

Lemma time_of_None_half_parsed entry : time_of entry = None → half_parsed entry = false.
Proof. intros Ht. unfold half_parsed. by rewrite Ht. Qed.

Lemma time_of_None_failure entry :
  time_of entry = None → ∃ e, parse_created_at entry = Raise e ∧ failure_of entry = Some e.
Proof.
  unfold time_of, failure_of.
  destruct (parse_created_at entry) as [dt|e]; [done|]. eauto.
Qed.

(** X3: a record whose timestamp does not parse is skipped in the full
    sense: the call returns, or raises, exactly what it does for the batch
    without that record, and the page gets the warnings of the batch with
    the one for this record in its place. *)
Theorem process_data_skips_unparsed_timestamp l1 entry l2 w :
  time_of entry = None →
  (process_data (PList (l1 ++ entry :: l2)) w).1
  = (process_data (PList (l1 ++ l2)) w).1
  ∧ ∃ e, parse_created_at entry = Raise e
      ∧ (process_data (PList (l1 ++ entry :: l2)) w).2
        = show (omap warning_of l1 ++ st_warning_skipping entry e
                :: omap warning_of l2) w.
Proof.
  intros Ht.
  pose proof (time_of_None_point_of _ Ht) as Hp.
  pose proof (time_of_None_half_parsed _ Ht) as Hh.
  destruct (time_of_None_failure _ Ht) as (e & He & Hf).
  rewrite (process_data_spec _ (l1 ++ entry :: l2)) by reflexivity.
  rewrite (process_data_spec _ (l1 ++ l2)) by reflexivity.
  assert (omap point_of (l1 ++ entry :: l2) = omap point_of (l1 ++ l2)) as Hpts.
  { rewrite !omap_app. csimpl. by rewrite Hp. }
  assert (unsorted (l1 ++ entry :: l2) = unsorted (l1 ++ l2)) as ->.
  { unfold unsorted. by rewrite Hpts. }
  assert (existsb half_parsed (l1 ++ entry :: l2)
          = existsb half_parsed (l1 ++ l2)) as ->.
  { rewrite !existsb_app. simpl. by rewrite Hh. }
  split; [done|]. exists e. split; [done|]. simpl.
  rewrite omap_app. csimpl. unfold warning_of at 2. by rewrite Hf.
Qed.

Lemma process_data_skips_unparsed_timestamp_witness :
  (process_data
     (PList ([record "2024-01-01T00:00:00Z" "25.0"]
             ++ record "yesterday" "26.0"
             :: [record "2024-01-01T00:00:02Z" "24.5"])) fresh).1
  = (process_data
       (PList ([record "2024-01-01T00:00:00Z" "25.0"]
               ++ [record "2024-01-01T00:00:02Z" "24.5"])) fresh).1.
Proof.
  apply (process_data_skips_unparsed_timestamp
           [record "2024-01-01T00:00:00Z" "25.0"] (record "yesterday" "26.0")
           [record "2024-01-01T00:00:02Z" "24.5"] fresh).
  vm_compute. reflexivity.
Defined.

Lemma no_times_no_points entries :
  forallb (λ entry, bool_decide (time_of entry = None)) entries = true →
  omap point_of entries = [] ∧ existsb half_parsed entries = false.
Proof.
  induction entries as [|entry rest IH]; [done|]. simpl.
  intros [Ht Hr]%andb_true_iff. apply bool_decide_eq_true in Ht.
  destruct (IH Hr) as [IH1 IH2]. split.
  - csimpl. rewrite (time_of_None_point_of _ Ht). exact IH1.
  - simpl. by rewrite (time_of_None_half_parsed _ Ht), IH2.
Qed.

(** X4: when no timestamp of the batch parses, the result is the empty
    table, not a failure, with one warning for each record. *)
Theorem process_data_no_timestamp_parses entries w :
  forallb (λ entry, bool_decide (time_of entry = None)) entries = true →
  process_data (PList entries) w = (Ok [], show (omap warning_of entries) w)
  ∧ length (omap warning_of entries) = length entries.
Proof.
  intros Hall. destruct (no_times_no_points _ Hall) as [Hp Hh].
  split.
  - rewrite (process_data_spec _ entries) by reflexivity.
    unfold unsorted. by rewrite Hh, Hp.
  - pose proof (points_plus_warnings entries) as Hlen.
    rewrite Hp in Hlen. exact Hlen.
Qed.

Lemma process_data_no_timestamp_parses_witness :
  process_data (PList [record "yesterday" "26.0"; PNone; PInt 3]) fresh
  = (Ok [], show (omap warning_of [record "yesterday" "26.0"; PNone; PInt 3])
                 fresh)
  ∧ length (omap warning_of [record "yesterday" "26.0"; PNone; PInt 3])
    = length [record "yesterday" "26.0"; PNone; PInt 3].
Proof.
  apply (process_data_no_timestamp_parses
           [record "yesterday" "26.0"; PNone; PInt 3] fresh).
  vm_compute. reflexivity.
Defined.

Lemma strings_are_not_records (keys : list string) w :
  process_data (PList (PStr <$> keys)) w
  = (Ok [], show ((not_a_record ∘ PStr) <$> keys) w).
Proof.
  rewrite (process_data_spec _ (PStr <$> keys)) by reflexivity.
  assert (omap point_of (PStr <$> keys) = []
          ∧ existsb half_parsed (PStr <$> keys) = false
          ∧ omap warning_of (PStr <$> keys) = (not_a_record ∘ PStr) <$> keys)
    as (Hp & Hh & Hw).
  { induction keys as [|k keys (IH1 & IH2 & IH3)]; [done|].
    csimpl. by rewrite IH1, IH2, IH3. }
  unfold unsorted. by rewrite Hp, Hh, Hw.
Qed.

Lemma chars_fmap s : ∃ keys, chars s = PStr <$> keys ∧ length keys = String.length s.
Proof.
  induction s as [|c s (keys & Hk & Hlen)]; [by exists []|].
  exists (String c EmptyString :: keys). simpl. by rewrite Hk, Hlen.
Qed.

(** X5: an answer that is not a list.  A JSON object is iterated by its
    keys and a string by its characters; none of these is a record, so the
    table is empty and each key or character has its warning.  [None], a
    number or a boolean cannot be iterated: [process_data] raises
    [TypeError] and shows nothing. *)
Theorem process_data_not_a_list data w :
  match data with
  | PList _ => True
  | PDict items =>
      process_data data w
      = (Ok [], show ((not_a_record ∘ PStr) <$> items.*1) w)
  | PStr s =>
      ∃ keys, length keys = String.length s
        ∧ process_data data w = (Ok [], show ((not_a_record ∘ PStr) <$> keys) w)
  | PNone | PBool _ | PInt _ | PFloat _ =>
      process_data data w = (Raise TypeError, w)
  end.
Proof.
  destruct data as [| | | |s| |items]; try done.
  - destruct (chars_fmap s) as (keys & Hk & Hlen). exists keys. split; [done|].
    rewrite <- strings_are_not_records.
    unfold process_data, bind, lift. simpl. by rewrite Hk.
  - rewrite <- strings_are_not_records. reflexivity.
Qed.

(** ** The order of the input *)

Lemma existsb_Permutation {A} (f : A → bool) (l1 l2 : list A) :
  l1 ≡ₚ l2 → existsb f l1 = existsb f l2.
Proof.
  induction 1 as [|x l1 l2 _ IH|x y l|l1 l2 l3 _ IH1 _ IH2]; simpl.
  - done.
  - by rewrite IH.
  - by destruct (f x), (f y).
  - by rewrite IH1.
Qed.

Lemma has_aware_points df :
  has_aware df = existsb (λ p : datetime * pyfloat, aware p.1) (point <$> df).
Proof.
  unfold has_aware, has_naive. induction df as [|r df IH]; [done|].
  csimpl. f_equal. exact IH.
Qed.

Lemma has_naive_points df :
  has_naive df = existsb (λ p : datetime * pyfloat, naive p.1) (point <$> df).
Proof.
  unfold has_aware, has_naive. induction df as [|r df IH]; [done|].
  csimpl. f_equal. exact IH.
Qed.

Lemma reset_index_table_of df : reset_index df = table_of (point <$> df).
Proof.
  unfold reset_index, table_of. rewrite imap_fmap. apply imap_ext.
  by intros i [???] _.
Qed.

Lemma sorted_points df :
  StronglySorted point_le (point <$> merge_sort row_le df).
Proof.
  apply (StronglySorted_fmap _ row_le); [by intros ??|].
  apply StronglySorted_merge_sort; apply _.
Qed.

Lemma NoDup_fmap_eq {A B} (f : A → B) (l : list A) x y :
  NoDup (f <$> l) → x ∈ l → y ∈ l → f x = f y → x = y.
Proof.
  induction l as [|a l IH]; csimpl; [by intros _ ?%elem_of_nil|].
  rewrite NoDup_cons. intros [Ha Hl] Hx Hy Hf.
  apply elem_of_cons in Hx as [->|Hx]; apply elem_of_cons in Hy as [->|Hy].
  - done.
  - exfalso. apply Ha. rewrite Hf. by apply list_elem_of_fmap_2.
  - exfalso. apply Ha. rewrite <- Hf. by apply list_elem_of_fmap_2.
  - by apply IH.
Qed.

(** X6: the order in which the feed lists its records does not matter:
    when no two points of the batch fall on the same instant, a batch and
    any rearrangement of it give the same table, or the same exception. *)
Theorem process_data_order_insensitive es1 es2 w :
  es1 ≡ₚ es2 →
  NoDup ((λ p : datetime * pyfloat, instant p.1) <$> omap point_of es1) →
  (process_data (PList es1) w).1 = (process_data (PList es2) w).1.
Proof.
  intros Hperm Hdistinct.
  rewrite (process_data_spec _ es1), (process_data_spec _ es2) by reflexivity.
  simpl.
  assert (omap point_of es1 ≡ₚ omap point_of es2) as Hpts by (by rewrite Hperm).
  rewrite (existsb_Permutation _ _ _ Hperm).
  rewrite !has_aware_points, !has_naive_points, !unsorted_points.
  rewrite (existsb_Permutation (λ p, aware p.1) _ _ Hpts).
  rewrite (existsb_Permutation (λ p, naive p.1) _ _ Hpts).
  destruct (existsb half_parsed es2); [done|].
  destruct (_ && _); [done|].
  f_equal. rewrite !reset_index_table_of. f_equal.
  assert (∀ es, point <$> merge_sort row_le (unsorted es) ≡ₚ omap point_of es)
    as Hsorted.
  { intros es. by rewrite merge_sort_Permutation, unsorted_points. }
  apply (StronglySorted_unique_strong point_le); try apply sorted_points.
  - intros p q Hp Hq Hpq Hqp.
    rewrite Hsorted in Hp. rewrite Hsorted, <- Hpts in Hq.
    apply (NoDup_fmap_eq (λ p : datetime * pyfloat, instant p.1)
             (omap point_of es1)); try done.
    unfold point_le in *. simpl. lia.
  - by rewrite !Hsorted.
Qed.

Lemma process_data_order_insensitive_witness :
  (process_data (PList out_of_order_batch) fresh).1
  = (process_data (PList reversed_batch) fresh).1.
Proof.
  apply (process_data_order_insensitive out_of_order_batch reversed_batch fresh).
  - apply perm_swap.
  - apply (bool_decide_unpack (NoDup _)). vm_compute. exact I.
Defined.

(** ** The cache, entry by entry *)

Section CacheProperties.

Context (AIO_USERNAME : string) (AIO_KEY : option string).
Context (network : nat → request → request_error * string + response).

Local Abbreviation fetch := (get_feed_data AIO_USERNAME AIO_KEY network).
Local Abbreviation fetch_cached := (get_feed_data_cached AIO_USERNAME AIO_KEY network).
Local Abbreviation request_for := (feed_request AIO_USERNAME AIO_KEY).
Local Abbreviation dashboard := (create_dashboard AIO_USERNAME AIO_KEY network).

Lemma cached_valid_false w key :
  cached_valid w key = false →
  ∀ e, cache w !! key = Some e → expires e ≤ clock w.
Proof.
  unfold cached_valid. intros H e He. rewrite He in H.
  apply bool_decide_eq_false in H. lia.
Qed.

Lemma cached_valid_true w key :
  cached_valid w key = true →
  ∃ e, cache w !! key = Some e ∧ clock w < expires e.
Proof.
  unfold cached_valid. destruct (cache w !! key) as [e|]; [|done].
  intros H%bool_decide_eq_true. eauto.
Qed.

(** A call without a valid entry returns what the function returns, and
    stores it with the elements the function showed. *)
Lemma get_feed_data_cached_stale feed_key limit w v msgs :
  cached_valid w (feed_key, limit) = false →
  fetch feed_key limit w
  = (Ok v, show msgs (send (request_for feed_key limit) w)) →
  fetch_cached feed_key limit w
  = (Ok v,
     mk_world (page w ++ msgs)
       (<[(feed_key, limit) := mk_cache_entry v msgs (clock w + 600)]> (cache w))
       (sent w ++ [request_for feed_key limit]) (clock w)).
Proof.
  intros Hstale Hrun. unfold get_feed_data_cached, cache_data. rewrite Hrun.
  simpl. rewrite drop_app_length.
  unfold cached_valid in Hstale.
  destruct (cache w !! (feed_key, limit)) as [e|]; [|done].
  by rewrite Hstale.
Qed.

(** X7: a failed fetch is memoised like any other result.  For 600
    seconds from the failure a call for the same feed returns [None] and
    shows the same message again; it sends no request, whatever the network
    would answer by then. *)
Theorem failed_fetch_is_memoized feed_key limit w k msg :
  cached_valid w (feed_key, limit) = false →
  network (length (sent w)) (request_for feed_key limit) = inl (k, msg) →
  ∃ w1,
    fetch_cached feed_key limit w = (Ok PNone, w1)
    ∧ ∀ w2, cache w2 !! (feed_key, limit) = cache w1 !! (feed_key, limit) →
        clock w2 < clock w + 600 →
        fetch_cached feed_key limit w2
        = (Ok PNone, show [fetch_error feed_key msg] w2).
Proof.
  intros Hstale Hnet.
  assert (fetch feed_key limit w
          = (Ok PNone, show [fetch_error feed_key msg]
                         (send (request_for feed_key limit) w))) as Hrun.
  { rewrite get_feed_data_spec. cbv zeta. by rewrite Hnet. }
  eexists. split.
  { exact (get_feed_data_cached_stale _ _ _ _ _ Hstale Hrun). }
  intros w2 Hsame Hsoon. simpl in Hsame. rewrite lookup_insert_eq in Hsame.
  rewrite (get_feed_data_cached_hit _ _ _ _ _ _ _ Hsame); [done|].
  simpl. lia.
Qed.

(** X8: an entry older than its 600 seconds is not served: the call sends
    the request again, returns what the function returns this time, and
    puts that in the place of the old entry, valid for 600 seconds from
    now. *)
Theorem expired_entry_is_refetched feed_key limit w e :
  cache w !! (feed_key, limit) = Some e →
  expires e ≤ clock w →
  ∃ v msgs w1,
    fetch feed_key limit w
    = (Ok v, show msgs (send (request_for feed_key limit) w))
    ∧ fetch_cached feed_key limit w = (Ok v, w1)
    ∧ sent w1 = sent w ++ [request_for feed_key limit]
    ∧ page w1 = page w ++ msgs
    ∧ cache w1 !! (feed_key, limit)
      = Some (mk_cache_entry v msgs (clock w + 600)).
Proof.
  intros He Hold.
  destruct (get_feed_data_world AIO_USERNAME AIO_KEY network feed_key limit w)
    as (v & msgs & Hrun).
  assert (cached_valid w (feed_key, limit) = false) as Hstale.
  { unfold cached_valid. rewrite He. apply bool_decide_eq_false. lia. }
  exists v, msgs. eexists. split; [exact Hrun|]. split.
  { exact (get_feed_data_cached_stale _ _ _ _ _ Hstale Hrun). }
  simpl. by rewrite lookup_insert_eq.
Qed.

(** What a call does to the world, hit or miss. *)
Lemma get_feed_data_cached_effect feed_key limit w :
  ∃ v msgs w1,
    fetch_cached feed_key limit w = (Ok v, w1)
    ∧ page w1 = page w ++ msgs
    ∧ sent w1
      = sent w ++ (if cached_valid w (feed_key, limit) then []
                   else [request_for feed_key limit])
    ∧ clock w1 = clock w
    ∧ ∀ key, key ≠ (feed_key, limit) → cache w1 !! key = cache w !! key.
Proof.
  destruct (cached_valid w (feed_key, limit)) eqn:Hv.
  - apply cached_valid_true in Hv as (e & He & Hvalid).
    exists (cached_value e), (cached_messages e). eexists. split.
    { exact (get_feed_data_cached_hit _ _ _ _ _ _ _ He Hvalid). }
    simpl. by rewrite app_nil_r.
  - destruct (get_feed_data_world AIO_USERNAME AIO_KEY network feed_key limit w)
      as (v & msgs & Hrun).
    exists v, msgs. eexists. split.
    { exact (get_feed_data_cached_stale _ _ _ _ _ Hv Hrun). }
    simpl. repeat split; try done.
    intros key Hkey. by rewrite lookup_insert_ne.
Qed.

(** X9: the calls are memoised one by one: a call, served or fetched,
    leaves the entry of every other call as it is and does not move the
    clock, so what is valid for another feed stays valid. *)
Theorem cache_entries_independent feed_key limit key w :
  key ≠ (feed_key, limit) →
  cache (fetch_cached feed_key limit w).2 !! key = cache w !! key
  ∧ cached_valid (fetch_cached feed_key limit w).2 key = cached_valid w key.
Proof.
  intros Hkey.
  destruct (get_feed_data_cached_effect feed_key limit w)
    as (v & msgs & w1 & Hrun & _ & _ & Hclock & Hcache).
  rewrite Hrun. simpl. unfold cached_valid.
  by rewrite (Hcache key Hkey), Hclock.
Qed.

End CacheProperties.

Lemma failed_fetch_is_memoized_witness :
  ∃ w1,
    get_feed_data_cached "emon4075" None network_temperature_down
      "temperature" None fresh = (Ok PNone, w1)
    ∧ ∀ w2, cache w2 !! ("temperature", None) = cache w1 !! ("temperature", None) →
        clock w2 < clock fresh + 600 →
        get_feed_data_cached "emon4075" None network_temperature_down
          "temperature" None w2
        = (Ok PNone,
           show [fetch_error "temperature" "connection refused"] w2).
Proof.
  apply (failed_fetch_is_memoized "emon4075" None network_temperature_down
           "temperature" None fresh ConnectionError "connection refused").
  - vm_compute. reflexivity.
  - vm_compute. reflexivity.
Defined.

(** ** The run after the two fetches *)

Lemma show_app events1 events2 w :
  show (events1 ++ events2) w = show events2 (show events1 w).
Proof. by rewrite show_show. Qed.

Lemma process_data_world data w : ∃ events, (process_data data w).2 = show events w.
Proof.
  destruct (py_iter data) as [entries|e] eqn:Hit.
  - exists (omap warning_of entries). by rewrite (process_data_spec _ _ _ Hit).
  - exists []. unfold process_data, bind, lift. rewrite Hit. simpl.
    by rewrite show_nil.
Qed.

Lemma py_or_list entries : py_or (PList entries) (PList []) = PList entries.
Proof. by destruct entries. Qed.

(** The run from the two raw results on, when neither is [None]. *)
Lemma render_fetched temp humid w :
  is_None temp || is_None humid = false →
  render temp humid w
  = match process_data (py_or temp (PList [])) w with
    | (Raise e, w1) => (Raise e, w1)
    | (Ok temp_df, w1) =>
        match process_data (py_or humid (PList [])) w1 with
        | (Raise e, w2) => (Raise e, w2)
        | (Ok humid_df, w2) =>
            (Ok tt,
             show (if empty temp_df && empty humid_df then [no_valid_data]
                   else chart_and_tables temp_df humid_df) w2)
        end
    end.
Proof.
  intros Hnone. unfold render. rewrite Hnone. unfold bind at 1.
  destruct (process_data (py_or temp (PList [])) w) as [[temp_df|e] w1]; [|done].
  unfold bind at 1.
  destruct (process_data (py_or humid (PList [])) w1) as [[humid_df|e] w2];
    [|done].
  destruct (empty temp_df && empty humid_df); [done|].
  unfold chart_and_tables, bind, emit, show. simpl.
  by rewrite <- !app_assoc.
Qed.

Lemma only_shows_render temp humid : only_shows (render temp humid).
Proof.
  intros w. destruct (is_None temp || is_None humid) eqn:Hnone.
  - unfold render. rewrite Hnone. by eexists [_].
  - rewrite (render_fetched _ _ _ Hnone).
    destruct (process_data_world (py_or temp (PList [])) w) as [ev1 H1].
    destruct (process_data (py_or temp (PList [])) w) as [[temp_df|e] w1];
      simpl in H1; subst w1; [|by eexists].
    destruct (process_data_world (py_or humid (PList [])) (show ev1 w))
      as [ev2 H2].
    destruct (process_data (py_or humid (PList [])) (show ev1 w))
      as [[humid_df|e] w2]; simpl in H2; subst w2; simpl.
    + rewrite !show_show. by eexists.
    + rewrite !show_show. by eexists.
Qed.

Lemma no_times_warnings entries w :
  forallb (λ entry, bool_decide (time_of entry = None)) entries = true →
  process_data (PList entries) w = (Ok [], show (omap warning_of entries) w).
Proof.
  intros Hall. destruct (no_times_no_points _ Hall) as [Hp Hh].
  rewrite (process_data_spec _ entries) by reflexivity.
  unfold unsorted. by rewrite Hh, Hp.
Qed.

(** X11: when both feeds answer with lists in which no timestamp parses,
    the run from the two results on does not raise: it warns about every
    record, temperature first, then shows the no-data warning, and no chart
    or table. *)
Theorem render_no_valid_data temp_entries humid_entries w :
  forallb (λ entry, bool_decide (time_of entry = None)) temp_entries = true →
  forallb (λ entry, bool_decide (time_of entry = None)) humid_entries = true →
  render (PList temp_entries) (PList humid_entries) w
  = (Ok tt,
     show (omap warning_of temp_entries ++ omap warning_of humid_entries
           ++ [no_valid_data]) w)
  ∧ length (omap warning_of temp_entries) = length temp_entries
  ∧ length (omap warning_of humid_entries) = length humid_entries.
Proof.
  intros Ht Hh. split.
  - rewrite render_fetched by done. rewrite !py_or_list.
    rewrite (no_times_warnings _ _ Ht), (no_times_warnings _ _ Hh). simpl.
    by rewrite !show_show.
  - pose proof (points_plus_warnings temp_entries) as H1.
    pose proof (points_plus_warnings humid_entries) as H2.
    rewrite (proj1 (no_times_no_points _ Ht)) in H1.
    rewrite (proj1 (no_times_no_points _ Hh)) in H2. done.
Qed.

Lemma render_no_valid_data_witness :
  render (PList [record "yesterday" "26.0"]) (PList []) fresh
  = (Ok tt,
     show (omap warning_of [record "yesterday" "26.0"] ++ omap warning_of []
           ++ [no_valid_data]) fresh).
Proof.
  apply (render_no_valid_data [record "yesterday" "26.0"] [] fresh);
    vm_compute; reflexivity.
Defined.



(** X13: [raw or []] takes every answer that Python counts as false for
    the empty list: an empty object, an empty string, zero or [false] as
    the answer of a feed is treated like a feed without records. *)
Theorem render_falsy_answer answer other w :
  truthy answer = false →
  is_None answer = false →
  process_data (py_or answer (PList [])) w = (Ok [], w)
  ∧ render answer other w = render (PList []) other w
  ∧ render other answer w = render other (PList []) w.
Proof.
  intros Hfalse Hnone.
  assert (py_or answer (PList []) = PList []) as Hor.
  { unfold py_or. by rewrite Hfalse. }
  split; [|split].
  - rewrite Hor. rewrite (process_data_spec _ []) by reflexivity.
    simpl. by rewrite show_nil.
  - unfold render. by rewrite Hnone, Hor.
  - unfold render. by rewrite Hnone, Hor.
Qed.

Lemma render_falsy_answer_witness :
  process_data (py_or (PDict []) (PList [])) fresh = (Ok [], fresh)
  ∧ render (PDict []) (PList humidity_records) fresh
    = render (PList []) (PList humidity_records) fresh
  ∧ render (PList humidity_records) (PDict []) fresh
    = render (PList humidity_records) (PList []) fresh.
Proof.
  apply (render_falsy_answer (PDict []) (PList humidity_records) fresh);
    reflexivity.
Defined.

Global Instance row_ge_trans : Transitive row_ge.
Proof. unfold row_ge, row_le. intros a b c. lia. Qed.

Global Instance row_ge_total : Total row_ge.
Proof. unfold row_ge, row_le. intros a b. lia. Qed.

(** X14: the table shown for a feed holds the rows of the normalised
    table, each once, the newest first under Python's [<=]. *)
Theorem tables_newest_first data w df w' :
  process_data data w = (Ok df, w') →
  sort_index_descending df ≡ₚ df
  ∧ ∀ i j a b, (i < j)%nat →
      sort_index_descending df !! i = Some a →
      sort_index_descending df !! j = Some b →
      datetime_le (row_time b) (row_time a) = Ok true.
Proof.
  intros (entries & _ & _ & Huni & -> & _)%process_data_Ok.
  set (df := reset_index (merge_sort row_le (unsorted entries))).
  pose proof (merge_sort_Permutation row_ge df) as Hperm.
  pose proof (StronglySorted_merge_sort row_ge df) as Hsort.
  split; [exact Hperm|].
  intros i j a b Hij Ha Hb.
  assert (has_aware df && has_naive df = false) as Hdf.
  { rewrite has_aware_points, has_naive_points. subst df.
    rewrite reset_index_points.
    assert (point <$> merge_sort row_le (unsorted entries)
            ≡ₚ point <$> unsorted entries) as Hp
      by (by rewrite merge_sort_Permutation).
    rewrite (existsb_Permutation _ _ _ Hp).
    rewrite (existsb_Permutation (λ p, naive p.1) _ _ Hp).
    by rewrite <- has_aware_points, <- has_naive_points. }
  apply (datetime_le_uniform df); [done| | |].
  - rewrite <- Hperm. apply list_elem_of_lookup. eauto.
  - rewrite <- Hperm. apply list_elem_of_lookup. eauto.
  - change (row_ge a b). eapply StronglySorted_lookup; eauto.
Qed.

Lemma tables_newest_first_witness :
  sort_index_descending
    [mk_row 0 (utc 2024 1 1 0 0 0) (FDec false 25 0);
     mk_row 1 (utc 2024 1 1 0 0 2) (FDec false 245 (-1))]
  ≡ₚ [mk_row 0 (utc 2024 1 1 0 0 0) (FDec false 25 0);
      mk_row 1 (utc 2024 1 1 0 0 2) (FDec false 245 (-1))].
Proof.
  apply (tables_newest_first (PList batch_with_bad_time) fresh _
           (show [st_warning_skipping (record "yesterday" "26.0") ValueError]
                 fresh)).
  vm_compute. reflexivity.
Defined.

(** ** The requests of a run *)

Section RunProperties.

Context (AIO_USERNAME : string) (AIO_KEY : option string).
Context (network : nat → request → request_error * string + response).

Local Abbreviation fetch_cached := (get_feed_data_cached AIO_USERNAME AIO_KEY network).
Local Abbreviation request_for := (feed_request AIO_USERNAME AIO_KEY).
Local Abbreviation dashboard := (create_dashboard AIO_USERNAME AIO_KEY network).

Lemma dashboard_sent theme w :
  sent (dashboard theme false w).2
  = sent w
    ++ (if cached_valid w (TEMP_FEED_KEY, None) then []
        else [request_for TEMP_FEED_KEY None])
    ++ (if cached_valid w (HUMID_FEED_KEY, None) then []
        else [request_for HUMID_FEED_KEY None]).
Proof.
  rewrite create_dashboard_fetches.
  set (w0 := show (header_events theme) w).
  destruct (get_feed_data_cached_effect AIO_USERNAME AIO_KEY network
              TEMP_FEED_KEY None w0)
    as (t & msgs1 & w1 & Hrun1 & _ & Hsent1 & Hclock1 & Hcache1).
  destruct (get_feed_data_cached_effect AIO_USERNAME AIO_KEY network
              HUMID_FEED_KEY None w1)
    as (h & msgs2 & w2 & Hrun2 & _ & Hsent2 & _ & _).
  unfold bind at 1. rewrite Hrun1. unfold bind at 1. rewrite Hrun2.
  destruct (only_shows_render t h w2) as [events ->]. simpl.
  rewrite Hsent2, Hsent1.
  assert (cached_valid w1 (HUMID_FEED_KEY, None)
          = cached_valid w (HUMID_FEED_KEY, None)) as ->.
  { unfold cached_valid. rewrite Hclock1, Hcache1; done. }
  by rewrite <- app_assoc.
Qed.

(** X15: a run in which the refresh button is not pressed sends at most
    two requests, for temperature and then for humidity, and only for a
    feed without a valid entry in the cache.  A run in which the button is
    pressed sends none and empties the cache, so that the run after it
    sends both requests again. *)
Theorem dashboard_requests theme theme' w :
  sent (dashboard theme false w).2
  = sent w
    ++ (if cached_valid w (TEMP_FEED_KEY, None) then []
        else [request_for TEMP_FEED_KEY None])
    ++ (if cached_valid w (HUMID_FEED_KEY, None) then []
        else [request_for HUMID_FEED_KEY None])
  ∧ sent (dashboard theme true w).2 = sent w
  ∧ sent (dashboard theme' false (dashboard theme true w).2).2
    = sent w ++ [request_for TEMP_FEED_KEY None; request_for HUMID_FEED_KEY None].
Proof.
  split; [apply dashboard_sent|]. split; [reflexivity|].
  by rewrite dashboard_sent.
Qed.

End RunProperties.

Lemma expired_entry_is_refetched_witness :
  ∃ v msgs w1,
    get_feed_data "emon4075" None network_temperature_down "humidity" None
      stale_world
    = (Ok v, show msgs (send (feed_request "emon4075" None "humidity" None)
                          stale_world))
    ∧ get_feed_data_cached "emon4075" None network_temperature_down
        "humidity" None stale_world = (Ok v, w1)
    ∧ sent w1 = sent stale_world ++ [feed_request "emon4075" None "humidity" None]
    ∧ page w1 = page stale_world ++ msgs
    ∧ cache w1 !! ("humidity", None)
      = Some (mk_cache_entry v msgs (clock stale_world + 600)).
Proof.
  eapply (expired_entry_is_refetched "emon4075" None network_temperature_down
            "humidity" None stale_world).
  - vm_compute. reflexivity.
  - vm_compute. discriminate.
Defined.

Lemma cache_entries_independent_witness :
  cache (get_feed_data_cached "emon4075" None network_temperature_down
           "humidity" None stale_world).2 !! ("temperature", None)
  = cache stale_world !! ("temperature", None)
  ∧ cached_valid (get_feed_data_cached "emon4075" None network_temperature_down
                    "humidity" None stale_world).2 ("temperature", None)
    = cached_valid stale_world ("temperature", None).
Proof.
  apply (cache_entries_independent "emon4075" None network_temperature_down
           "humidity" None ("temperature", None) stale_world).
  discriminate.
Defined.

(** ** The configuration *)

(** X16: the account name and the key are taken from the first place that
    sets them, in this order: the secrets file, the environment of the
    process, the [.env] file.  The secrets come first because reading them
    copies them into the environment before [os.getenv] looks there.  The
    name falls back to [emon4075] and the key to [None].  Without a secrets
    file the module does not load, whatever the environment sets. *)
Theorem module_config_precedence dotenv environ secrets :
  module_config dotenv environ (Some secrets)
  = Imported
      (Some (default "emon4075"
               (first_set [secrets !! "AIO_USERNAME"; environ !! "AIO_USERNAME";
                           dotenv !! "AIO_USERNAME"])),
       first_set [secrets !! "AIO_KEY"; environ !! "AIO_KEY";
                  dotenv !! "AIO_KEY"])
  ∧ module_config dotenv environ None = SecretsNotFound.
Proof.
  split; [|reflexivity].
  unfold module_config, st_secrets_get, os_getenv, load_dotenv.
  do 2 f_equal.
  - rewrite !lookup_union. simpl.
    destruct (secrets !! "AIO_USERNAME"), (environ !! "AIO_USERNAME"),
      (dotenv !! "AIO_USERNAME"); done.
  - rewrite !lookup_union. simpl.
    destruct (secrets !! "AIO_KEY"), (environ !! "AIO_KEY"),
      (dotenv !! "AIO_KEY"); done.
Qed.
